(** * Renova Hospitals voice agent: booking, customer detection, call records

    A shallow embedding of the Python appointment engine documented in the
    repository's technical implementation notes (handlers, CalendarService,
    GmailService, SessionManager, the caches) and of the components the
    design specification adds to them (SlotAllocator, CancellationVerifier).

    Conventions.
    - A Python [dict] with string keys that the code builds literally is a
      record of [option] fields: [None] is an absent key, so that
      [d.get(k, default)] is [default] on [None].
    - A Python exception is the [Raise] branch of [result]; stateful code
      threads its state explicitly and keeps the state reached when it
      raises.
    - Datetimes are integers: minutes since the epoch for calendar times
      (a date is a day number, a time of day a minute after midnight),
      microseconds for the wall clock of the session manager. *)

From Stdlib Require Import ZArith Lia.
From stdpp Require Import gmap strings list fin_maps.

Local Open Scope Z_scope.

(** ** Exceptions and fallible results *)

Inductive exn :=
  | AttributeError (obj attr : string)
  | HttpError (api : string).

Inductive result (A : Type) :=
  | Ok (a : A)
  | Raise (e : exn).
Arguments Ok {A} a.
Arguments Raise {A} e.

#[global] Instance result_ret : MRet result := λ A a, Ok a.
#[global] Instance result_bind : MBind result :=
  λ A B f m, match m with Ok a => f a | Raise e => Raise e end.

(** Python truthiness of the values the handlers test. *)
Definition truthy_bool (v : option bool) : bool := default false v.
Definition truthy_str (v : option string) : bool :=
  match v with Some s => negb (String.eqb s "") | None => false end.

(** [x or y] on optional strings: the first operand when it is truthy. *)
Definition or_str (x : option string) (y : string) : string :=
  match x with
  | Some s => if String.eqb s "" then y else s
  | None => y
  end.
Definition or_opt_str (x y : option string) : option string :=
  if truthy_str x then x else y.

(** Insertion sort by a boolean order, used wherever the code or the
    design asks for an ordered listing. *)
Section Sorting.
Context {A : Type} (leb : A → A → bool).

Fixpoint insert_by (x : A) (l : list A) : list A :=
  match l with
  | [] => [x]
  | y :: l' => if leb x y then x :: l else y :: insert_by x l'
  end.

Fixpoint sort_by (l : list A) : list A :=
  match l with
  | [] => []
  | x :: l' => insert_by x (sort_by l')
  end.
End Sorting.

(** ** Calendar data *)

Definition minutes_per_day : Z := 1440.

(** An event of the Google calendar, with the patient details the booking
    stores on it. *)
Record Event := {
  ev_start : Z;
  ev_end : Z;
  ev_doctor : string;
  ev_patient_name : string;
  ev_patient_email : string;
}.

Definition ev_date (e : Event) : Z := ev_start e `div` minutes_per_day.
Definition ev_time (e : Event) : Z := ev_start e `mod` minutes_per_day.

(** AppointmentSlot of the data model: date, time, durationMinutes,
    doctorName, department. *)
Record AppointmentSlot := {
  slot_date : Z;
  slot_time : Z;
  slot_duration : Z;
  slot_doctor : option string;
  slot_department : option string;
}.

Definition slot_start (s : AppointmentSlot) : Z :=
  slot_date s * minutes_per_day + slot_time s.
Definition slot_end (s : AppointmentSlot) : Z := slot_start s + slot_duration s.

(** The dictionary [check_availability] returns. *)
Record AvailabilityDict := {
  av_success : option bool;
  av_available : option bool;
  av_message : option string;
  av_conflicts : option (list Event);
  av_alternatives : option (list AppointmentSlot);
}.

(** Working-hours policy: a configurable window, 09:00-18:00 on
    non-weekend days by default, scanned in 30-minute steps for slots of
    the default 30 minutes.  (The feature notes of the repository say
    Monday to Saturday; the working days are a field of the policy, and
    what is proved of the suggester holds for every policy.) *)
Record WorkingHours := {
  work_start : Z;
  work_end : Z;
  step_minutes : Z;
  slot_minutes : Z;
  working_day : Z → bool;
}.

(** Day 0 is Thursday 1 January 1970; Monday is 0 as in [weekday()]. *)
Definition weekday (date : Z) : Z := (date + 3) `mod` 7.

Definition default_hours : WorkingHours := {|
  work_start := 9 * 60;
  work_end := 18 * 60;
  step_minutes := 30;
  slot_minutes := 30;
  working_day := λ d, weekday d <? 5;
|}.

(** ** Conflict detection *)

(** Modelled from the spec: the duration by which two intervals overlap
    (the conflict test is not among the sources). *)
Definition overlap_minutes (s1 e1 s2 e2 : Z) : Z := Z.min e1 e2 - Z.max s1 s2.

(** Modelled from the spec: two intervals conflict if they overlap by any
    positive duration. *)
Definition intervals_conflict (s1 e1 s2 e2 : Z) : bool :=
  0 <? overlap_minutes s1 e1 s2 e2.

(** Modelled from the spec: [CalendarService._check_time_conflicts] is
    called by [check_availability] but its body is not among the sources.
    The conflicts of a request are the listed events that conflict with
    its interval. *)
Definition _check_time_conflicts (events : list Event)
    (start_datetime end_datetime : Z) : list Event :=
  filter (λ e, intervals_conflict start_datetime end_datetime
                 (ev_start e) (ev_end e) = true) events.

(** Modelled from the spec: two slots overlap when their intervals
    conflict. *)
Definition slots_overlap (a b : AppointmentSlot) : bool :=
  intervals_conflict (slot_start a) (slot_end a) (slot_start b) (slot_end b).

(** ** SlotAllocator *)

(** The sources call [_suggest_alternative_slots] without defining it;
    this module is the suggester as the design describes it. *)
Module SlotAllocator.

(** Modelled from the spec: a slot lies on a working day, inside the
    configured working hours. *)
Definition within_working_hours (cfg : WorkingHours) (s : AppointmentSlot) : bool :=
  working_day cfg (slot_date s)
  && (work_start cfg <=? slot_time s)
  && (slot_time s + slot_duration s <=? work_end cfg).

(** Modelled from the spec: the calendar query, optionally filtered by
    doctor. *)
Definition events_for (doctor : option string) (events : list Event) : list Event :=
  match doctor with
  | None => events
  | Some d => filter (λ e, ev_doctor e = d) events
  end.

(** Modelled from the spec: a candidate passes the availability check
    with zero conflicts. *)
Definition free_of_conflicts (events : list Event) (s : AppointmentSlot) : bool :=
  bool_decide
    (_check_time_conflicts (events_for (slot_doctor s) events)
       (slot_start s) (slot_end s) = []).

(** Modelled from the spec: the scan of one day at the fixed granularity,
    from the start of the working hours. *)
Definition steps_per_day (cfg : WorkingHours) : nat :=
  S (Z.to_nat ((work_end cfg - work_start cfg) `div` step_minutes cfg)).

(** Modelled from the spec: the slots of one day on that grid. *)
Definition day_slots (cfg : WorkingHours) (date : Z) (doctor : option string)
    : list AppointmentSlot :=
  (λ k : nat, {| slot_date := date;
                 slot_time := work_start cfg + Z.of_nat k * step_minutes cfg;
                 slot_duration := slot_minutes cfg;
                 slot_doctor := doctor;
                 slot_department := None |})
  <$> seq 0 (steps_per_day cfg).

(** Modelled from the spec: the scan forward from the requested date for
    [windowDays] days, keeping the slots within working hours that have no
    conflict. *)
Definition candidates (cfg : WorkingHours) (events : list Event)
    (date : Z) (doctor : option string) (windowDays : nat) : list AppointmentSlot :=
  filter (λ s, within_working_hours cfg s && free_of_conflicts events s = true)
    (seq 0 windowDays ≫= λ d, day_slots cfg (date + Z.of_nat d) doctor).

(** Modelled from the spec: the composite ranking key, date distance,
    time-of-day distance, doctor match if a doctor was specified. *)
Definition rank_key (date time : Z) (doctor : option string)
    (s : AppointmentSlot) : Z * Z * Z :=
  (Z.abs (slot_date s - date),
   Z.abs (slot_time s - time),
   match doctor with
   | None => 0
   | Some _ => if bool_decide (slot_doctor s = doctor) then 0 else 1
   end).

(** Modelled from the spec: the order on composite keys, component by
    component. *)
Definition key_leb (k1 k2 : Z * Z * Z) : bool :=
  let '(a1, b1, c1) := k1 in
  let '(a2, b2, c2) := k2 in
  (a1 <? a2) || ((a1 =? a2) && ((b1 <? b2) || ((b1 =? b2) && (c1 <=? c2)))).

(** Modelled from the spec: the candidates in ranked order. *)
Definition rank (date time : Z) (doctor : option string)
    (l : list AppointmentSlot) : list AppointmentSlot :=
  sort_by (λ a b, key_leb (rank_key date time doctor a) (rank_key date time doctor b)) l.

(** Modelled from the spec: slots are validated against each other.
    Walking the ranked candidates, one is kept only if it overlaps none of
    those already kept, until [count] are found. *)
Fixpoint select_consistent (ranked chosen : list AppointmentSlot) (count : nat)
    : list AppointmentSlot :=
  match ranked with
  | [] => []
  | s :: rest =>
      match count with
      | O => []
      | S n =>
          if forallb (λ c, negb (slots_overlap c s)) chosen
          then s :: select_consistent rest (s :: chosen) n
          else select_consistent rest chosen count
      end
  end.

(** Modelled from the spec: the suggester
    [suggest(date, time, doctorName?, windowDays=7, count=5)] of the
    design; the sources only call it. *)
Definition suggest (cfg : WorkingHours) (events : list Event)
    (date time : Z) (doctor : option string) (windowDays count : nat)
    : list AppointmentSlot :=
  select_consistent (rank date time doctor (candidates cfg events date doctor windowDays))
    [] count.

End SlotAllocator.

(** ** CalendarService *)

Module CalendarService.

(** What stands behind [self.service]: the events of the calendar
    [self.calendar_id] and whether a request to the API goes through. *)
Record t := {
  events : list Event;
  api_up : bool;
}.

(** Modelled from the spec: [_parse_appointment_datetime] is not among the
    sources.  Dates and times reach the core normalised, so the parsed
    datetime is the minute count of the date plus the minute of the day. *)
Definition _parse_appointment_datetime (appointment_date appointment_time : Z) : Z :=
  appointment_date * minutes_per_day + appointment_time.

(** [self.service.events().list(timeMin, timeMax, singleEvents=True,
    orderBy='startTime').execute()] followed by [.get('items', [])]: the
    events ending after [timeMin] and starting before [timeMax], by start
    time; the request raises when the API is down. *)
Definition events_list (self : t) (timeMin timeMax : Z) : result (list Event) :=
  if api_up self
  then Ok (sort_by (λ a b, ev_start a <=? ev_start b)
             (filter (λ e, timeMin < ev_end e ∧ ev_start e < timeMax) (events self)))
  else Raise (HttpError "calendar").

(** Modelled from the spec: [_suggest_alternative_slots(start_datetime,
    conflicts)] is the suggester of the design with its defaults (a window
    of 7 days, 5 slots, any doctor). *)
Definition _suggest_alternative_slots (self : t) (start_datetime : Z)
    (conflicts : list Event) : list AppointmentSlot :=
  SlotAllocator.suggest default_hours (events self)
    (start_datetime `div` minutes_per_day) (start_datetime `mod` minutes_per_day)
    None 7 5.

Definition check_availability (self : t)
    (appointment_date appointment_time duration : Z) : result AvailabilityDict :=
  let start_datetime := _parse_appointment_datetime appointment_date appointment_time in
  let end_datetime := start_datetime + duration in
  events ← events_list self start_datetime end_datetime;
  let conflicts := _check_time_conflicts events start_datetime end_datetime in
  match conflicts with
  | [] =>
      Ok {| av_success := Some true;
            av_available := Some true;
            av_message := Some "Time slot is available"%string;
            av_conflicts := None;
            av_alternatives := None |}
  | _ :: _ =>
      let alternatives := _suggest_alternative_slots self start_datetime conflicts in
      Ok {| av_success := Some true;
            av_available := Some false;
            av_message := None;
            av_conflicts := Some conflicts;
            av_alternatives := Some alternatives |}
  end.

(** [duration=30] when the caller leaves it out. *)
Definition default_duration : Z := 30.

End CalendarService.

(** ** Patients, call records and the global session state *)

(** A phone number as the handlers hold it: a string, or Python's [None]
    when [arguments.get('phone')] finds no key. *)
Abbreviation Phone := (option string).

(** A row of the Patients sheet, as [save_patient_data] reads it. *)
Record PatientRecord := {
  pr_phone : string;
  pr_name : string;
  pr_email : string;
  pr_last_visit : string;
  pr_preferred_doctor : string;
  pr_department : string;
  pr_language : string;
  pr_customer_type : string;
  pr_notes : string;
}.

(** The [patient_info] dictionaries of session memory. *)
Abbreviation PatientInfo := (gmap string string).

(** Modelled from the spec: [convert_to_dict] is not among the sources;
    the fields of the PatientRecord become the keys of a dictionary. *)
Definition convert_to_dict (r : PatientRecord) : PatientInfo :=
  list_to_map
    [("phone", pr_phone r); ("name", pr_name r); ("email", pr_email r);
     ("last_visit", pr_last_visit r); ("preferred_doctor", pr_preferred_doctor r);
     ("department", pr_department r); ("language", pr_language r);
     ("customer_type", pr_customer_type r); ("notes", pr_notes r)]%string.

(** The durable store as the customer detection sees it: an object with a
    lookup by phone that yields a record or [None].  The lookup itself is
    not among the sources and stays a field of the object. *)
Record GoogleSheetsService := {
  get_patient_by_phone : Phone → option PatientRecord;
}.

(** An attribute of a Python object that [__init__] does not assign:
    reading it before an assignment raises [AttributeError]. *)
Inductive attr (A : Type) :=
  | Unset
  | Assigned (a : A).
Arguments Unset {A}.
Arguments Assigned {A} a.

(** [CallRecord]: the attributes [__init__] assigns, then those the session
    code reads or assigns later.  The ones that are only ever written are
    [None] until then. *)
Record CallRecord := {
  call_id : string;
  session_id : string;
  timestamp : Z;
  caller_phone : Phone;
  customer_name : string;
  customer_email : string;
  language : string;
  call_type : string;
  status : string;
  start_time : attr (option Z);
  duration_seconds : option Z;
  customer_type : option (string * option PatientInfo);
  department_enquired : option string;
  doctor_enquired : option string;
}.

(** [CallRecord.__init__(session_id, caller_phone=None)]; the fresh uuid and
    the clock reading are passed in. *)
Definition CallRecord_init (uuid : string) (now : Z) (session_id : string)
    (caller_phone : Phone) : CallRecord := {|
  call_id := uuid;
  session_id := session_id;
  timestamp := now;
  caller_phone := caller_phone;
  customer_name := "";
  customer_email := "";
  language := "english";
  call_type := "inquiry";
  status := "in_progress";
  start_time := Unset;
  duration_seconds := None;
  customer_type := None;
  department_enquired := None;
  doctor_enquired := None;
|}.

(** The [session_data] dictionary of [create_session], without the socket. *)
Record SessionData := {
  sd_id : string;
  sd_voice_id : string;
  sd_created_at : Z;
  sd_last_activity : Z;
  sd_status : string;
}.

(** The module-level globals, and what has been written to the durable
    call log. *)
Record Globals := {
  active_sessions : gmap string SessionData;
  session_call_records : gmap string CallRecord;
  patient_database : gmap Phone PatientInfo;
  global_sheets_service : option GoogleSheetsService;
  saved_call_records : list CallRecord;
}.

Definition set_session_call_records (m : gmap string CallRecord) (g : Globals) : Globals :=
  {| active_sessions := active_sessions g;
     session_call_records := m;
     patient_database := patient_database g;
     global_sheets_service := global_sheets_service g;
     saved_call_records := saved_call_records g |}.

Definition set_active_sessions (m : gmap string SessionData) (g : Globals) : Globals :=
  {| active_sessions := m;
     session_call_records := session_call_records g;
     patient_database := patient_database g;
     global_sheets_service := global_sheets_service g;
     saved_call_records := saved_call_records g |}.

Definition set_patient_database (m : gmap Phone PatientInfo) (g : Globals) : Globals :=
  {| active_sessions := active_sessions g;
     session_call_records := session_call_records g;
     patient_database := m;
     global_sheets_service := global_sheets_service g;
     saved_call_records := saved_call_records g |}.

Definition set_saved_call_records (l : list CallRecord) (g : Globals) : Globals :=
  {| active_sessions := active_sessions g;
     session_call_records := session_call_records g;
     patient_database := patient_database g;
     global_sheets_service := global_sheets_service g;
     saved_call_records := l |}.

(** ** Customer detection *)

Definition detect_customer_type (phone_number : Phone) (g : Globals)
    : (string * option PatientInfo) * Globals :=
  (* Level 1: current session memory *)
  match patient_database g !! phone_number with
  | Some info => (("existing"%string, Some info), g)
  | None =>
      (* Level 2: Google Sheets historical data *)
      match global_sheets_service g with
      | Some sheets =>
          match get_patient_by_phone sheets phone_number with
          | Some patient_record =>
              (* Cache in session memory *)
              let info := convert_to_dict patient_record in
              (("returning"%string, Some info),
               set_patient_database (<[phone_number := info]> (patient_database g)) g)
          | None => (("new"%string, None), g)
          end
      (* Level 3: New customer *)
      | None => (("new"%string, None), g)
      end
  end.

(** The resolution order in the design's words, as a relation between the
    state before, the answer and the state after. *)
Inductive identify_spec (phone : Phone) (g : Globals)
    : string * option PatientInfo → Globals → Prop :=
  | identify_existing info :
      patient_database g !! phone = Some info →
      identify_spec phone g ("existing"%string, Some info) g
  | identify_returning sheets patient_record :
      patient_database g !! phone = None →
      global_sheets_service g = Some sheets →
      get_patient_by_phone sheets phone = Some patient_record →
      identify_spec phone g
        ("returning"%string, Some (convert_to_dict patient_record))
        (set_patient_database
           (<[phone := convert_to_dict patient_record]> (patient_database g)) g)
  | identify_new :
      patient_database g !! phone = None →
      (∀ sheets, global_sheets_service g = Some sheets →
                 get_patient_by_phone sheets phone = None) →
      identify_spec phone g ("new"%string, None) g.

(** ** Session manager *)

Module SessionManager.

Definition microseconds_per_second : Z := 1000000.

(** The integer nearest to [num / den], ties going to the even one: the
    rounding of a binary float's mantissa ([0 < den]). *)
Definition round_half_even (num den : Z) : Z :=
  let q := num / den in
  let r := num mod den in
  if 2 * r <? den then q
  else if den <? 2 * r then q + 1
  else if Z.even q then q else q + 1.

(** [int(a / d)] for positive Python ints: [a / d] is the double nearest
    to the exact ratio (53-bit mantissa, ties to even), and [int]
    truncates it.  With [2 ^ l <= a / d < 2 ^ (l + 1)] the mantissa is the
    ratio scaled by [2 ^ (52 - l)] and rounded. *)
Definition int_of_true_division (a d : Z) : Z :=
  let k := Z.log2 a - Z.log2 d in
  let at_least_2k :=
    if 0 <=? k then d * 2 ^ k <=? a else d <=? a * 2 ^ (- k) in
  let exponent := (if at_least_2k then k else k - 1) - 52 in
  if 0 <=? exponent
  then round_half_even a (d * 2 ^ exponent) * 2 ^ exponent
  else round_half_even (a * 2 ^ (- exponent)) d / 2 ^ (- exponent).

(** [int(delta.total_seconds())] of a timedelta of [microseconds]:
    [total_seconds()] is the true division of the microsecond count by
    [10 ** 6], a float, and [int] rounds it towards zero. *)
Definition int_total_seconds (microseconds : Z) : Z :=
  if microseconds =? 0 then 0
  else Z.sgn microseconds
       * int_of_true_division (Z.abs microseconds) microseconds_per_second.

(** Modelled from the spec: [_save_call_record] is not among the sources;
    it appends the record to the durable call log. *)
Definition _save_call_record (call_record : CallRecord) (g : Globals) : Globals :=
  set_saved_call_records (saved_call_records g ++ [call_record]) g.

Definition set_duration_seconds (d : Z) (r : CallRecord) : CallRecord :=
  {| call_id := call_id r; session_id := session_id r; timestamp := timestamp r;
     caller_phone := caller_phone r; customer_name := customer_name r;
     customer_email := customer_email r; language := language r;
     call_type := call_type r; status := status r; start_time := start_time r;
     duration_seconds := Some d;
     customer_type := customer_type r;
     department_enquired := department_enquired r;
     doctor_enquired := doctor_enquired r |}.

(** [create_session(websocket, voice_id)]: the two fresh uuids (the
    session's and the call record's) and the clock reading are passed in. *)
Definition create_session (session_uuid call_uuid : string) (now : Z)
    (voice_id : string) (g : Globals) : string * Globals :=
  let session_id := session_uuid in
  let session_data :=
    {| sd_id := session_id; sd_voice_id := voice_id; sd_created_at := now;
       sd_last_activity := now; sd_status := "active" |} in
  (* Initialize call record *)
  let call_record := CallRecord_init call_uuid now session_id None in
  (* Store in global state *)
  let g := set_active_sessions (<[session_id := session_data]> (active_sessions g)) g in
  let g := set_session_call_records
             (<[session_id := call_record]> (session_call_records g)) g in
  (session_id, g).

(** [cleanup_session(session_id)], with the reading [now] of
    [datetime.now()], in microseconds like [start_time]. *)
Definition cleanup_session (now : Z) (session_id : string) (g : Globals)
    : result unit * Globals :=
  match session_call_records g !! session_id with
  | Some call_record =>
      match start_time call_record with
      | Unset => (Raise (AttributeError "CallRecord" "start_time"), g)
      | Assigned st =>
          (* Calculate final duration *)
          let call_record :=
            match st with
            | Some t => set_duration_seconds (int_total_seconds (now - t))
                          call_record
            | None => call_record
            end in
          (* Save final call record *)
          let g := _save_call_record call_record g in
          (* Cleanup memory *)
          let g := set_session_call_records
                     (delete session_id (session_call_records g)) g in
          (Ok (), set_active_sessions (delete session_id (active_sessions g)) g)
      end
  | None => (Ok (), set_active_sessions (delete session_id (active_sessions g)) g)
  end.

End SessionManager.

(** ** Real-time call record updates *)

Definition update_record_fields (patient_name email : option string) (phone : Phone)
    (customer_type : string * option PatientInfo)
    (department doctor_name : option string) (r : CallRecord) : CallRecord :=
  {| call_id := call_id r; session_id := session_id r; timestamp := timestamp r;
     caller_phone := or_opt_str phone (caller_phone r);
     customer_name := or_str patient_name (customer_name r);
     customer_email := or_str email (customer_email r);
     language := language r;
     call_type := "appointment_booking";
     status := status r; start_time := start_time r;
     duration_seconds := duration_seconds r;
     customer_type := Some customer_type;
     department_enquired :=
       if truthy_str department then department else department_enquired r;
     doctor_enquired :=
       if truthy_str doctor_name then doctor_name else doctor_enquired r |}.

Definition update_call_record_from_function (session_id function_name : string)
    (arguments : gmap string string) (g : Globals) : Globals :=
  match session_call_records g !! session_id with
  | None => g
  | Some call_record =>
      if bool_decide (function_name ∈ ["book_appointment"; "send_appointment_email"]%string)
      then
        (* Extract patient information *)
        let phone := arguments !! "phone"%string in
        let patient_name := arguments !! "patient_name"%string in
        let email := arguments !! "email"%string in
        (* Customer detection *)
        let '(customer_type, g) := detect_customer_type phone g in
        (* Update call record *)
        let call_record :=
          update_record_fields patient_name email phone customer_type
            (arguments !! "department"%string) (arguments !! "doctor_name"%string)
            call_record in
        set_session_call_records (<[session_id := call_record]> (session_call_records g)) g
      else g
  end.

(** ** Booking *)

(** [params.arguments] of [book_appointment], by its schema ([phone] is
    not a required field). *)
Record BookingArguments := {
  arg_patient_name : string;
  arg_email : string;
  arg_phone : Phone;
  arg_appointment_date : Z;
  arg_appointment_time : Z;
  arg_doctor_name : string;
  arg_department : string;
}.

(** The [patient_data] dictionary the booking steps pass around. *)
Record PatientData := {
  pd_patient_name : string;
  pd_email : string;
  pd_phone : Phone;
  pd_date : Z;
  pd_time : Z;
  pd_doctor_name : string;
  pd_department : string;
}.

(** Modelled from the spec: [extract_patient_data] is not among the
    sources; it renames the schema's fields to the keys the handler
    reads. *)
Definition extract_patient_data (a : BookingArguments) : PatientData := {|
  pd_patient_name := arg_patient_name a;
  pd_email := arg_email a;
  pd_phone := arg_phone a;
  pd_date := arg_appointment_date a;
  pd_time := arg_appointment_time a;
  pd_doctor_name := arg_doctor_name a;
  pd_department := arg_department a;
|}.

(** The dictionaries the Gmail and calendar writes return. *)
Record ServiceResult := {
  sr_success : option bool;
  sr_id : option string;
  sr_error : option string;
}.

(** The dictionary handed to [params.result_callback]. *)
Record Reply := {
  rp_success : bool;
  rp_available : option bool;
  rp_message : string;
  rp_alternatives : option (list AppointmentSlot);
  rp_email_sent : option (option bool);
  rp_calendar_added : option (option bool);
  rp_appointment_details : option PatientData;
}.

(** What a handler does to the outside, in the order it does it. *)
Inductive Effect :=
  | CheckAvailability (appointment_date appointment_time : Z)
  | SendConfirmationEmail (patient_data : PatientData)
  | CreateCalendarEvent (patient_data : PatientData)
  | LogCallRecord (patient_data : PatientData)
  | ResultCallback (reply : Reply)
  | DeleteCalendarEvent (event : Event)
  | SendCancellationEmail (event : Event).

(** Everything a handler can read or change: the collaborators (calendar,
    Gmail and whether their write requests go through), the call log, the
    replies given, the module globals, and the trace of effects. *)
Record World := {
  calendar : CalendarService.t;
  calendar_accepts_insert : bool;
  gmail_api_up : bool;
  gmail_sent : list string;
  call_log : list PatientData;
  callbacks : list Reply;
  globals : Globals;
  trace : list Effect;
}.

Definition set_calendar (c : CalendarService.t) (w : World) : World :=
  {| calendar := c; calendar_accepts_insert := calendar_accepts_insert w;
     gmail_api_up := gmail_api_up w; gmail_sent := gmail_sent w;
     call_log := call_log w; callbacks := callbacks w; globals := globals w;
     trace := trace w |}.

Definition set_gmail_sent (l : list string) (w : World) : World :=
  {| calendar := calendar w; calendar_accepts_insert := calendar_accepts_insert w;
     gmail_api_up := gmail_api_up w; gmail_sent := l;
     call_log := call_log w; callbacks := callbacks w; globals := globals w;
     trace := trace w |}.

Definition set_call_log (l : list PatientData) (w : World) : World :=
  {| calendar := calendar w; calendar_accepts_insert := calendar_accepts_insert w;
     gmail_api_up := gmail_api_up w; gmail_sent := gmail_sent w;
     call_log := l; callbacks := callbacks w; globals := globals w;
     trace := trace w |}.

Definition set_callbacks (l : list Reply) (w : World) : World :=
  {| calendar := calendar w; calendar_accepts_insert := calendar_accepts_insert w;
     gmail_api_up := gmail_api_up w; gmail_sent := gmail_sent w;
     call_log := call_log w; callbacks := l; globals := globals w;
     trace := trace w |}.

Definition set_globals (g : Globals) (w : World) : World :=
  {| calendar := calendar w; calendar_accepts_insert := calendar_accepts_insert w;
     gmail_api_up := gmail_api_up w; gmail_sent := gmail_sent w;
     call_log := call_log w; callbacks := callbacks w; globals := g;
     trace := trace w |}.

Definition emit (e : Effect) (w : World) : World :=
  {| calendar := calendar w; calendar_accepts_insert := calendar_accepts_insert w;
     gmail_api_up := gmail_api_up w; gmail_sent := gmail_sent w;
     call_log := call_log w; callbacks := callbacks w; globals := globals w;
     trace := trace w ++ [e] |}.

(** A computation over the world that may raise. *)
Definition M (A : Type) : Type := World → result A * World.

Definition m_bind {A B : Type} (m : M A) (k : A → M B) : M B :=
  λ w, match m w with
       | (Ok a, w') => k a w'
       | (Raise e, w') => (Raise e, w')
       end.

Notation "x <~ m ;; k" := (m_bind m (λ x, k))
  (at level 100, m at next level, right associativity).

(** The object [get_calendar_service()] hands out: anything with a
    [check_availability] method.  [the_calendar_service] is the class
    above, called as the booking handler calls it (no duration). *)
Record calendar_service := {
  cs_check_availability : CalendarService.t → Z → Z → result AvailabilityDict;
}.

Definition the_calendar_service : calendar_service := {|
  cs_check_availability := λ self appointment_date appointment_time,
    CalendarService.check_availability self appointment_date appointment_time
      CalendarService.default_duration;
|}.

Definition call_check_availability (svc : calendar_service)
    (appointment_date appointment_time : Z) : M AvailabilityDict :=
  λ w, (cs_check_availability svc (calendar w) appointment_date appointment_time,
        emit (CheckAvailability appointment_date appointment_time) w).

Module GmailService.

(** [send_appointment_confirmation]: the request to the Gmail API is
    inside [try]; a failure comes back as a dictionary, not as an
    exception. *)
Definition send_appointment_confirmation (patient_data : PatientData) : M ServiceResult :=
  λ w,
    let w := emit (SendConfirmationEmail patient_data) w in
    if gmail_api_up w
    then (Ok {| sr_success := Some true; sr_id := Some "sent"%string; sr_error := None |},
          set_gmail_sent (gmail_sent w ++ [pd_email patient_data]) w)
    else (Ok {| sr_success := Some false; sr_id := None;
                sr_error := Some "HttpError"%string |}, w).

End GmailService.

(** Modelled from the spec: [send_confirmation_email] is not among the
    sources; the messaging collaborator's [sendConfirmation] is the Gmail
    service above. *)
Definition send_confirmation_email (patient_data : PatientData) : M ServiceResult :=
  GmailService.send_appointment_confirmation patient_data.

(** Modelled from the spec: the event a booking puts on the calendar, a
    slot of the default duration with the patient's details. *)
Definition event_of_patient_data (patient_data : PatientData) : Event :=
  let start := CalendarService._parse_appointment_datetime
                 (pd_date patient_data) (pd_time patient_data) in
  {| ev_start := start;
     ev_end := start + CalendarService.default_duration;
     ev_doctor := pd_doctor_name patient_data;
     ev_patient_name := pd_patient_name patient_data;
     ev_patient_email := pd_email patient_data |}.

(** Modelled from the spec: [create_calendar_event] is not among the
    sources.  The calendar collaborator's [createEvent] adds the event and
    reports success, or refuses and adds nothing. *)
Definition create_calendar_event (patient_data : PatientData) : M ServiceResult :=
  λ w,
    let w := emit (CreateCalendarEvent patient_data) w in
    if calendar_accepts_insert w
    then (Ok {| sr_success := Some true; sr_id := Some "event"%string; sr_error := None |},
          set_calendar
            {| CalendarService.events :=
                 CalendarService.events (calendar w) ++ [event_of_patient_data patient_data];
               CalendarService.api_up := CalendarService.api_up (calendar w) |} w)
    else (Ok {| sr_success := Some false; sr_id := None;
                sr_error := Some "conflict"%string |}, w).

(** Modelled from the spec: [log_call_record] is not among the sources; it
    adds a row to the call log. *)
Definition log_call_record (patient_data : PatientData) : M unit :=
  λ w, (Ok (), set_call_log (call_log w ++ [patient_data])
                 (emit (LogCallRecord patient_data) w)).

Definition result_callback (reply : Reply) : M unit :=
  λ w, (Ok (), set_callbacks (callbacks w ++ [reply]) (emit (ResultCallback reply) w)).

Definition handle_book_appointment (get_calendar_service : calendar_service)
    (arguments : BookingArguments) : M unit :=
  (* 1. Extract and validate data *)
  let patient_data := extract_patient_data arguments in
  (* 2. CRITICAL: Double-check availability *)
  let calendar_service := get_calendar_service in
  availability_check <~ call_check_availability calendar_service
                          (pd_date patient_data) (pd_time patient_data) ;;
  if negb (default true (av_available availability_check))
  then
    (* Slot no longer available *)
    result_callback
      {| rp_success := false;
         rp_available := Some false;
         rp_message := "Time slot no longer available";
         rp_alternatives := Some (default [] (av_alternatives availability_check));
         rp_email_sent := None;
         rp_calendar_added := None;
         rp_appointment_details := None |}
  else
    (* 3. Execute booking process *)
    (* Email confirmation *)
    email_result <~ send_confirmation_email patient_data ;;
    (* Calendar integration *)
    calendar_result <~ create_calendar_event patient_data ;;
    (* Call logging *)
    _ <~ log_call_record patient_data ;;
    (* 4. Return comprehensive result *)
    result_callback
      {| rp_success := true;
         rp_available := None;
         rp_message := "Appointment confirmed";
         rp_alternatives := None;
         rp_email_sent := Some (sr_success email_result);
         rp_calendar_added := Some (sr_success calendar_result);
         rp_appointment_details := Some patient_data |}.

(** ** Caches *)

Module AvailabilityCache.

Record t := {
  cache : gmap string (AvailabilityDict * Z);
  ttl : Z;
}.

Definition init (ttl : Z) : t := {| cache := ∅; ttl := ttl |}.

Definition set_cache (c : gmap string (AvailabilityDict * Z)) (self : t) : t :=
  {| cache := c; ttl := ttl self |}.

(** [time.time()] inside [check_availability(self, date, time)]: there the
    name [time] is the parameter, the time-of-day string, which hides the
    [time] module; a [str] has no attribute [time]. *)
Definition time_time (time : string) : result Z :=
  Raise (AttributeError "str" "time").

Definition check_availability
    (fetch_calendar_availability : string → string → result AvailabilityDict)
    (self : t) (date time : string) : result AvailabilityDict * t :=
  let cache_key := ("availability_" +:+ date +:+ "_" +:+ time)%string in
  (* Check cache *)
  let hit : result (option AvailabilityDict) :=
    match cache self !! cache_key with
    | Some (cached_result, timestamp) =>
        now ← time_time time;
        if now - timestamp <? ttl self then Ok (Some cached_result) else Ok None
    | None => Ok None
    end in
  match hit with
  | Raise e => (Raise e, self)
  | Ok (Some cached_result) => (Ok cached_result, self)
  | Ok None =>
      (* Fetch fresh data *)
      match fetch_calendar_availability date time with
      | Raise e => (Raise e, self)
      | Ok result =>
          (* Cache only if available (busy slots change frequently) *)
          if truthy_bool (av_available result)
          then
            match time_time time with
            | Raise e => (Raise e, self)
            | Ok now => (Ok result, set_cache (<[cache_key := (result, now)]> (cache self)) self)
            end
          else (Ok result, self)
      end
  end.

End AvailabilityCache.

Module PatientDataCache.

Record t := {
  cache : gmap string (PatientRecord * Z);
  ttl : Z;
}.

Definition set_cache (c : gmap string (PatientRecord * Z)) (self : t) : t :=
  {| cache := c; ttl := ttl self |}.

(** [get_patient(self, phone_number)]: here [time] is the module, and
    [now] its clock reading.  What the sheets give for a patient is a
    record object, truthy whenever there is one. *)
Definition get_patient (fetch_from_sheets : string → option PatientRecord) (now : Z)
    (self : t) (phone_number : string) : option PatientRecord * t :=
  let cache_key := ("patient_" +:+ phone_number)%string in
  let '(hit, self) :=
    match cache self !! cache_key with
    | Some (cached_data, timestamp) =>
        if now - timestamp <? ttl self then (Some cached_data, self)
        else (None, set_cache (delete cache_key (cache self)) self)
    | None => (None, self)
    end in
  match hit with
  | Some cached_data => (Some cached_data, self)
  | None =>
      (* Cache miss - fetch from Google Sheets *)
      let patient_data := fetch_from_sheets phone_number in
      match patient_data with
      | Some d => (patient_data, set_cache (<[cache_key := (d, now)]> (cache self)) self)
      | None => (patient_data, self)
      end
  end.

End PatientDataCache.

(** ** CancellationVerifier *)

(** The sources register [handle_cancel_appointment] without defining it;
    this module is the cancellation as the design describes it. *)
Module CancellationVerifier.

(** Modelled from the spec: the tolerance on the appointment time. *)
Definition tolerance_minutes : Z := 15.

(** Modelled from the spec: names are compared case-insensitively, letter
    by letter of the ASCII alphabet. *)
Definition lower_char (c : Ascii.ascii) : Ascii.ascii :=
  let n := Ascii.N_of_ascii c in
  if ((65 <=? n) && (n <=? 90))%N then Ascii.ascii_of_N (n + 32) else c.

(** Modelled from the spec: a name in lower case. *)
Fixpoint lower (s : string) : string :=
  match s with
  | EmptyString => EmptyString
  | String c s' => String (lower_char c) (lower s')
  end.

(** Modelled from the spec: the request
    [cancel(patientName, phone, date, time, doctorName, email?)]. *)
Record Request := {
  patientName : string;
  phone : Phone;
  date : Z;
  time : Z;
  doctorName : option string;
  email : option string;
}.

(** Modelled from the spec: [CancellationResult{success, found}]. *)
Record CancellationResult := {
  cr_success : bool;
  cr_found : bool;
}.

(** Modelled from the spec: the event is for the doctor, or any doctor if
    none is given. *)
Definition doctor_ok (rq : Request) (e : Event) : bool :=
  match doctorName rq with
  | None => true
  | Some d => String.eqb (ev_doctor e) d
  end.

(** Modelled from the spec: the stored e-mail matches, if one is given. *)
Definition email_ok (rq : Request) (e : Event) : bool :=
  match email rq with
  | None => true
  | Some a => String.eqb (ev_patient_email e) a
  end.

(** Modelled from the spec: the test the verifier runs on an event; all
    the conditions must hold. *)
Definition matches (rq : Request) (e : Event) : bool :=
  (ev_date e =? date rq)
  && doctor_ok rq e
  && (Z.abs (ev_time e - time rq) <=? tolerance_minutes)
  && String.eqb (lower (ev_patient_name e)) (lower (patientName rq))
  && email_ok rq e.

(** Modelled from the spec: the first event that passes [p], and the
    calendar without it. *)
Fixpoint take_first (p : Event → bool) (l : list Event) : option (Event * list Event) :=
  match l with
  | [] => None
  | e :: l' =>
      if p e then Some (e, l')
      else '(x, r) ← take_first p l'; Some (x, e :: r)
  end.

(** Modelled from the spec: the call record of a cancellation,
    [callType = cancellation] and [resolutionStatus = resolved]. *)
Definition mark_cancelled (r : CallRecord) : CallRecord :=
  {| call_id := call_id r; session_id := session_id r; timestamp := timestamp r;
     caller_phone := caller_phone r; customer_name := customer_name r;
     customer_email := customer_email r; language := language r;
     call_type := "cancellation";
     status := "resolved";
     start_time := start_time r; duration_seconds := duration_seconds r;
     customer_type := customer_type r;
     department_enquired := department_enquired r;
     doctor_enquired := doctor_enquired r |}.

(** Modelled from the spec: the calendar collaborator's [deleteEvent]. *)
Definition delete_event (e : Event) (rest : list Event) (w : World) : World :=
  set_calendar
    {| CalendarService.events := rest;
       CalendarService.api_up := CalendarService.api_up (calendar w) |}
    (emit (DeleteCalendarEvent e) w).

(** Modelled from the spec: the messaging collaborator's
    [sendCancellation]; a failed request sends nothing. *)
Definition send_cancellation (e : Event) (w : World) : World :=
  let w := emit (SendCancellationEmail e) w in
  if gmail_api_up w then set_gmail_sent (gmail_sent w ++ [ev_patient_email e]) w else w.

(** Modelled from the spec: the update of the session's call record. *)
Definition mark_call_record (session : string) (w : World) : World :=
  set_globals
    (set_session_call_records
       (alter mark_cancelled session (session_call_records (globals w)))
       (globals w)) w.

(** Modelled from the spec: the cancellation operation is registered by
    the sources but its body is not among them.  An event on [date], for
    the doctor if one is given, within the tolerance of the requested
    time, with the patient's name up to case and the e-mail if one is
    given, is removed, a notice is sent and the call record of the
    session is marked; without such an event nothing happens. *)
Definition cancel (session : string) (rq : Request) (w : World)
    : CancellationResult * World :=
  match take_first (matches rq) (CalendarService.events (calendar w)) with
  | Some (e, rest) =>
      ({| cr_success := true; cr_found := true |},
       mark_call_record session (send_cancellation e (delete_event e rest w)))
  | None => ({| cr_success := false; cr_found := false |}, w)
  end.

(** The matching rule in the design's words, to compare [matches] with. *)
Definition located (rq : Request) (e : Event) : Prop :=
  ev_date e = date rq
  ∧ (∀ d, doctorName rq = Some d → ev_doctor e = d)
  ∧ Z.abs (ev_time e - time rq) ≤ 15
  ∧ lower (ev_patient_name e) = lower (patientName rq)
  ∧ (∀ a, email rq = Some a → ev_patient_email e = a).

End CancellationVerifier.

(** ** The availability handler *)

(** [params.arguments] of [check_appointment_availability], by its schema
    ([duration_minutes] is not a required field). *)
Record AvailabilityArguments := {
  ava_appointment_date : Z;
  ava_appointment_time : Z;
  ava_duration_minutes : option Z;
}.

(** The dictionary the availability handler hands to
    [params.result_callback]. *)
Record AvailabilityReply := {
  ar_success : bool;
  ar_available : bool;
  ar_message : string;
  ar_requested_slot : option (option AppointmentSlot);
  ar_alternatives : option (list AppointmentSlot);
}.

(** The object the availability handler expects of
    [get_calendar_service()]: its [check_availability] is called with the
    keywords [appointment_date], [appointment_time] and
    [duration_minutes].  (The class [CalendarService] of the sources names
    its third parameter [duration]; the handler is modelled against the
    interface it calls.) *)
Record availability_service := {
  as_check_availability : CalendarService.t → Z → Z → Z → result AvailabilityDict;
}.

Definition call_check_availability_for (svc : availability_service)
    (appointment_date appointment_time duration_minutes : Z) : M AvailabilityDict :=
  λ w, (as_check_availability svc (calendar w)
          appointment_date appointment_time duration_minutes,
        emit (CheckAvailability appointment_date appointment_time) w).

(** [handle_check_appointment_availability(params)]; the callback of
    [params] is passed in.  No dictionary [check_availability] builds has a
    [requested_slot] key, so [get('requested_slot')] is [None]. *)
Definition handle_check_appointment_availability
    (get_calendar_service : availability_service)
    (arguments : AvailabilityArguments)
    (result_callback : AvailabilityReply → M unit) : M unit :=
  (* 1. Extract parameters *)
  let date := ava_appointment_date arguments in
  let time := ava_appointment_time arguments in
  let duration := default 30 (ava_duration_minutes arguments) in
  (* 2. Calendar service integration *)
  let calendar_service := get_calendar_service in
  availability_result <~ call_check_availability_for calendar_service date time duration ;;
  (* 3. Process results *)
  if truthy_bool (av_available availability_result)
  then
    result_callback
      {| ar_success := true;
         ar_available := true;
         ar_message := "Time slot is available";
         ar_requested_slot := Some None;
         ar_alternatives := None |}
  else
    (* Generate alternatives *)
    let alternatives := default [] (av_alternatives availability_result) in
    result_callback
      {| ar_success := true;
         ar_available := false;
         ar_message := "Time slot not available";
         ar_requested_slot := None;
         ar_alternatives := Some alternatives |}.

(** ** Function call error recovery *)

(** The dictionaries [safe_function_call_handler] hands to the callback. *)
Record WrapperReply := {
  wr_success : bool;
  wr_result : option unit;
  wr_error_type : option string;
  wr_message : option string;
  wr_details : option string;
}.

(** Which [except] clause catches an exception.  The classes
    [ValidationError] and [ExternalServiceError] are not defined in the
    sources: what belongs to them is a parameter of the wrapper. *)
Inductive error_class :=
  | ValidationError
  | ExternalServiceError
  | OtherException.

Definition error_reply (c : error_class) (details : string) : WrapperReply :=
  match c with
  | ValidationError =>
      {| wr_success := false; wr_result := None;
         wr_error_type := Some "validation"%string;
         wr_message := Some "Please provide valid information"%string;
         wr_details := Some details |}
  | ExternalServiceError =>
      {| wr_success := false; wr_result := None;
         wr_error_type := Some "service"%string;
         wr_message := Some "Service temporarily unavailable, please try again"%string;
         wr_details := Some details |}
  | OtherException =>
      {| wr_success := false; wr_result := None;
         wr_error_type := Some "unknown"%string;
         wr_message := Some "An unexpected error occurred"%string;
         wr_details := None |}
  end.

(** The [wrapper] that [safe_function_call_handler(original_handler)]
    builds.  The success callback is inside the [try]: an exception it
    raises is caught like one of the handler. *)
Definition safe_function_call_handler
    (classify : exn → error_class) (str : exn → string)
    (original_handler : M unit) (result_callback : WrapperReply → M unit) : M unit :=
  λ w,
    match (result <~ original_handler ;;
           (* Success callback *)
           result_callback {| wr_success := true; wr_result := Some result;
                              wr_error_type := None; wr_message := None;
                              wr_details := None |}) w with
    | (Ok _, w') => (Ok (), w')
    | (Raise e, w') => result_callback (error_reply (classify e) (str e)) w'
    end.

(** ** CallRecord.update_from_function_call *)

Definition update_from_function_call (function_name : string)
    (arguments : gmap string string) (self : CallRecord) : CallRecord :=
  if bool_decide (function_name
                  ∈ ["book_appointment"; "check_appointment_availability"]%string)
  then
    {| call_id := call_id self; session_id := session_id self;
       timestamp := timestamp self; caller_phone := caller_phone self;
       customer_name := default (customer_name self) (arguments !! "patient_name"%string);
       customer_email := default (customer_email self) (arguments !! "email"%string);
       language := language self;
       call_type := "appointment_booking";
       status := status self; start_time := start_time self;
       duration_seconds := duration_seconds self;
       customer_type := customer_type self;
       department_enquired := Some (default ""%string (arguments !! "department"%string));
       doctor_enquired := Some (default ""%string (arguments !! "doctor_name"%string)) |}
  else self.

(** ** GoogleSheetsService.save_patient_data *)

Module PatientSheet.

(** The Patients sheet behind [self.sheets_service]: its rows, and whether
    a request to the API goes through. *)
Record t := {
  rows : list (list string);
  api_up : bool;
}.

(** The dictionary [save_patient_data] returns; [updated_cells] is the
    number of cells the API reports as written. *)
Record SaveResult := {
  sv_success : option bool;
  sv_updated_cells : option nat;
  sv_error : option string;
}.

(** [save_patient_data(patient_record)]; the two formatted readings of
    [datetime.now()] are passed in. *)
Definition save_patient_data (created updated : string)
    (patient_record : PatientRecord) (self : t) : SaveResult * t :=
  let values :=
    [pr_phone patient_record; pr_name patient_record; pr_email patient_record;
     pr_last_visit patient_record; pr_preferred_doctor patient_record;
     pr_department patient_record; pr_language patient_record;
     pr_customer_type patient_record; pr_notes patient_record;
     created; updated] in
  if api_up self
  then ({| sv_success := Some true;
           sv_updated_cells := Some (length values);
           sv_error := None |},
        {| rows := rows self ++ [values]; api_up := api_up self |})
  else ({| sv_success := Some false;
           sv_updated_cells := None;
           sv_error := Some "HttpError"%string |}, self).

(** The columns of the range ['Patients!A:K']. *)
Definition range_columns : nat := 11.

End PatientSheet.

(** ** Database connection pooling *)

Module DatabaseConnectionManager.

Record Connection := {
  conn_id : nat;
  is_healthy : bool;
}.

(** The manager: [connection_pool] is the queue, oldest first; [closed]
    lists the connections [close()] was called on. *)
Record t := {
  max_connections : Z;
  connection_pool : list Connection;
  active_connections : Z;
  closed : list Connection;
}.

(** [__init__(max_connections=10)]. *)
Definition init (max_connections : Z) : t := {|
  max_connections := max_connections;
  connection_pool := [];
  active_connections := 0;
  closed := [];
|}.

(** What an [await] on the queue comes to: a value, or the coroutine stays
    suspended until another one puts or gets; or an exception. *)
Inductive outcome (A : Type) :=
  | Done (a : A)
  | Suspended
  | Failed (e : exn).
Arguments Done {A} a.
Arguments Suspended {A}.
Arguments Failed {A} e.

(** [Queue(maxsize)]: full when it holds [maxsize] items; a [maxsize] of
    zero or less is no bound. *)
Definition pool_full (self : t) : bool :=
  (0 <? max_connections self)
  && (max_connections self <=? Z.of_nat (length (connection_pool self))).

(** [get_connection()] is a coroutine: between the test of the limit and
    [self.active_connections += 1] it awaits [create_new_connection()],
    and other coroutines may run on the manager while it waits.  Its
    pieces, each of them run without interruption, are the test, which
    tells at which [await] the caller arrives, *)
Inductive awaiting :=
  | AwaitCreateNewConnection
  | AwaitPoolGet.

Definition get_connection_test (self : t) : awaiting :=
  if bool_decide (connection_pool self = [])
     && (active_connections self <? max_connections self)
  then AwaitCreateNewConnection
  else AwaitPoolGet.

(** the rest of the first branch, run on the manager as it is when
    [create_new_connection()] has answered, *)
Definition get_connection_created (create_new_connection : result Connection)
    (self : t) : outcome Connection * t :=
  match create_new_connection with
  | Ok connection =>
      (Done connection,
       {| max_connections := max_connections self;
          connection_pool := connection_pool self;
          active_connections := active_connections self + 1;
          closed := closed self |})
  | Raise e => (Failed e, self)
  end.

(** and [await self.connection_pool.get()]. *)
Definition get_connection_pooled (self : t) : outcome Connection * t :=
  match connection_pool self with
  | connection :: rest =>
      (Done connection,
       {| max_connections := max_connections self;
          connection_pool := rest;
          active_connections := active_connections self;
          closed := closed self |})
  | [] => (Suspended, self)
  end.

(** [get_connection()] in a run where no other coroutine is scheduled
    while it awaits; [create_new_connection] is the result of the request
    for a new connection, should one be made. *)
Definition get_connection (create_new_connection : result Connection) (self : t)
    : outcome Connection * t :=
  if bool_decide (connection_pool self = [])
     && (active_connections self <? max_connections self)
  then
    (* Create new connection *)
    match create_new_connection with
    | Ok connection =>
        (Done connection,
         {| max_connections := max_connections self;
            connection_pool := connection_pool self;
            active_connections := active_connections self + 1;
            closed := closed self |})
    | Raise e => (Failed e, self)
    end
  else
    (* Wait for available connection *)
    match connection_pool self with
    | connection :: rest =>
        (Done connection,
         {| max_connections := max_connections self;
            connection_pool := rest;
            active_connections := active_connections self;
            closed := closed self |})
    | [] => (Suspended, self)
    end.

(** [return_connection(connection)]. *)
Definition return_connection (connection : Connection) (self : t) : outcome unit * t :=
  if is_healthy connection
  then
    if pool_full self then (Suspended, self)
    else
      (Done (),
       {| max_connections := max_connections self;
          connection_pool := connection_pool self ++ [connection];
          active_connections := active_connections self;
          closed := closed self |})
  else
    (* Replace unhealthy connection *)
    (Done (),
     {| max_connections := max_connections self;
        connection_pool := connection_pool self;
        active_connections := active_connections self - 1;
        closed := closed self ++ [connection] |}).

End DatabaseConnectionManager.

(** ** Reference values and sample data *)

Definition sample_event : Event := {|
  ev_start := 20157 * 1440 + 600;
  ev_end := 20157 * 1440 + 630;
  ev_doctor := "Dr. Rao";
  ev_patient_name := "John Smith";
  ev_patient_email := "john@example.com";
|}.

Definition sample_calendar : CalendarService.t := {|
  CalendarService.events := [sample_event];
  CalendarService.api_up := true;
|}.

Definition sample_record : CallRecord := {|
  call_id := "c-1";
  session_id := "s-1";
  timestamp := 0;
  caller_phone := None;
  customer_name := "";
  customer_email := "";
  language := "english";
  call_type := "inquiry";
  status := "in_progress";
  start_time := Assigned (Some 100000000);
  duration_seconds := None;
  customer_type := None;
  department_enquired := None;
  doctor_enquired := None;
|}.

Definition sample_session : SessionData := {|
  sd_id := "s-1";
  sd_voice_id := "Charon";
  sd_created_at := 100000000;
  sd_last_activity := 100000000;
  sd_status := "active";
|}.

Definition sample_patient : PatientRecord := {|
  pr_phone := "+91-9876543210";
  pr_name := "John Smith";
  pr_email := "john@example.com";
  pr_last_visit := "2024-12-25";
  pr_preferred_doctor := "Dr. Patel";
  pr_department := "Cardiology";
  pr_language := "hindi";
  pr_customer_type := "existing";
  pr_notes := "";
|}.

Definition sample_sheets : GoogleSheetsService := {|
  get_patient_by_phone := λ p,
    if bool_decide (p = Some "+91-9876543210"%string) then Some sample_patient else None;
|}.

Definition sample_globals : Globals := {|
  active_sessions := {["s-1"%string := sample_session]};
  session_call_records := {["s-1"%string := sample_record]};
  patient_database := ∅;
  global_sheets_service := Some sample_sheets;
  saved_call_records := [];
|}.

Definition booking_arguments : gmap string string :=
  list_to_map [("phone", "+91-9876543210"); ("patient_name", "John Smith");
               ("email", "john@example.com"); ("department", "Cardiology");
               ("doctor_name", "Dr. Patel")]%string.

(** The record [cleanup_session] persists: with the duration
    [int(total_seconds())] when the record has a start time. *)
Definition finalized (now : Z) (st : option Z) (r : CallRecord) : CallRecord :=
  match st with
  | Some t => SessionManager.set_duration_seconds
                (SessionManager.int_total_seconds (now - t)) r
  | None => r
  end.

Definition unavailable_reply (d : AvailabilityDict) : Reply := {|
  rp_success := false;
  rp_available := Some false;
  rp_message := "Time slot no longer available";
  rp_alternatives := Some (default [] (av_alternatives d));
  rp_email_sent := None;
  rp_calendar_added := None;
  rp_appointment_details := None;
|}.

Definition confirmed_reply (email_sent calendar_added : option bool)
    (patient_data : PatientData) : Reply := {|
  rp_success := true;
  rp_available := None;
  rp_message := "Appointment confirmed";
  rp_alternatives := None;
  rp_email_sent := Some email_sent;
  rp_calendar_added := Some calendar_added;
  rp_appointment_details := Some patient_data;
|}.

Definition sample_world : World := {|
  calendar := sample_calendar;
  calendar_accepts_insert := true;
  gmail_api_up := true;
  gmail_sent := [];
  call_log := [];
  callbacks := [];
  globals := sample_globals;
  trace := [];
|}.

(** A request for 2025-03-10: 10:30 is free on the sample calendar, 10:00
    is taken. *)
Definition booking_at (appointment_time : Z) : BookingArguments := {|
  arg_patient_name := "Asha Rao";
  arg_email := "asha@example.com";
  arg_phone := Some "+91-9000000001"%string;
  arg_appointment_date := 20157;
  arg_appointment_time := appointment_time;
  arg_doctor_name := "Dr. Rao";
  arg_department := "Cardiology";
|}.

Definition busy_answer : AvailabilityDict :=
  Eval vm_compute in
    match CalendarService.check_availability sample_calendar 20157 600 30 with
    | Ok d => d
    | Raise _ => {| av_success := None; av_available := None; av_message := None;
                    av_conflicts := None; av_alternatives := None |}
    end.

Definition mail_down_world : World := {|
  calendar := sample_calendar;
  calendar_accepts_insert := true;
  gmail_api_up := false;
  gmail_sent := [];
  call_log := [];
  callbacks := [];
  globals := sample_globals;
  trace := [];
|}.

Definition free_answer : AvailabilityDict := {|
  av_success := Some true;
  av_available := Some true;
  av_message := Some "Time slot is available"%string;
  av_conflicts := None;
  av_alternatives := None;
|}.

(** A calendar service that reports a failed request the way the Gmail and
    Sheets services of these sources do: it catches the exception and
    returns an error dictionary, which has no [available] key. *)
Definition guarded_calendar_service : calendar_service := {|
  cs_check_availability := λ self appointment_date appointment_time,
    match CalendarService.check_availability self appointment_date appointment_time
            CalendarService.default_duration with
    | Ok r => Ok r
    | Raise _ =>
        Ok {| av_success := Some false;
              av_available := None;
              av_message := Some "calendar request failed"%string;
              av_conflicts := None;
              av_alternatives := None |}
    end;
|}.

(** The sample world with the calendar's listing request failing. *)
Definition calendar_down_world : World := {|
  calendar := {| CalendarService.events := [sample_event];
                 CalendarService.api_up := false |};
  calendar_accepts_insert := true;
  gmail_api_up := true;
  gmail_sent := [];
  call_log := [];
  callbacks := [];
  globals := sample_globals;
  trace := [];
|}.

Definition cancel_request (time : Z) : CancellationVerifier.Request := {|
  CancellationVerifier.patientName := "JOHN smith";
  CancellationVerifier.phone := Some "+91-9876543210"%string;
  CancellationVerifier.date := 20157;
  CancellationVerifier.time := time;
  CancellationVerifier.doctorName := Some "Dr. Rao"%string;
  CancellationVerifier.email := None;
|}.

Definition recorded_call : CallRecord := {|
  call_id := "c-2";
  session_id := "s-3";
  timestamp := 0;
  caller_phone := Some "+91-9000000001"%string;
  customer_name := "Asha Rao";
  customer_email := "asha@example.com";
  language := "english";
  call_type := "inquiry";
  status := "in_progress";
  start_time := Assigned (Some 0);
  duration_seconds := None;
  customer_type := None;
  department_enquired := Some "Cardiology"%string;
  doctor_enquired := Some "Dr. Rao"%string;
|}.

Definition recorded_globals : Globals := {|
  active_sessions := ∅;
  session_call_records := {["s-3"%string := recorded_call]};
  patient_database := ∅;
  global_sheets_service := None;
  saved_call_records := [];
|}.

Definition blank_name_arguments : gmap string string :=
  {["patient_name"%string := ""%string]}.

(** A calendar service of the shape the availability handler calls, which
    reports a failed request as [guarded_calendar_service] does. *)
Definition guarded_availability_service : availability_service := {|
  as_check_availability := λ self appointment_date appointment_time duration_minutes,
    match CalendarService.check_availability self appointment_date appointment_time
            duration_minutes with
    | Ok r => Ok r
    | Raise _ =>
        Ok {| av_success := Some false;
              av_available := None;
              av_message := Some "calendar request failed"%string;
              av_conflicts := None;
              av_alternatives := None |}
    end;
|}.

Definition failed_answer : AvailabilityDict := {|
  av_success := Some false;
  av_available := None;
  av_message := Some "calendar request failed"%string;
  av_conflicts := None;
  av_alternatives := None;
|}.

Definition sample_patient_cache : PatientDataCache.t := {|
  PatientDataCache.cache :=
    {[ "patient_+91-9876543210"%string := (sample_patient, 1000) ]};
  PatientDataCache.ttl := 3600;
|}.

Definition idle_manager : DatabaseConnectionManager.t :=
  DatabaseConnectionManager.init 10.

Definition busy_manager : DatabaseConnectionManager.t := {|
  DatabaseConnectionManager.max_connections := 10;
  DatabaseConnectionManager.connection_pool := [];
  DatabaseConnectionManager.active_connections := 10;
  DatabaseConnectionManager.closed := [];
|}.

(** A manager with one place left. *)
Definition nearly_full_manager : DatabaseConnectionManager.t := {|
  DatabaseConnectionManager.max_connections := 10;
  DatabaseConnectionManager.connection_pool := [];
  DatabaseConnectionManager.active_connections := 9;
  DatabaseConnectionManager.closed := [];
|}.

Definition healthy_connection : DatabaseConnectionManager.Connection := {|
  DatabaseConnectionManager.conn_id := 1;
  DatabaseConnectionManager.is_healthy := true;
|}.

Definition broken_connection : DatabaseConnectionManager.Connection := {|
  DatabaseConnectionManager.conn_id := 2;
  DatabaseConnectionManager.is_healthy := false;
|}.

Definition success_reply : WrapperReply := {|
  wr_success := true;
  wr_result := Some ();
  wr_error_type := None;
  wr_message := None;
  wr_details := None;
|}.

(** A callback that takes the reply and returns. *)
Definition quiet_callback : WrapperReply → M unit := λ _ w, (Ok (), w).

Definition calendar_refusing_world : World := {|
  calendar := sample_calendar;
  calendar_accepts_insert := false;
  gmail_api_up := true;
  gmail_sent := [];
  call_log := [];
  callbacks := [];
  globals := sample_globals;
  trace := [];
|}.

(** * Verification *)

(** ** Sorting keeps the elements *)

Section SortingFacts.
Context {A : Type} (leb : A → A → bool).

Lemma insert_by_perm x l : insert_by leb x l ≡ₚ x :: l.
Proof.
  induction l as [|y l IH]; simpl; [done|].
  destruct (leb x y); [done|].
  rewrite IH. apply Permutation_swap.
Qed.

Lemma sort_by_perm l : sort_by leb l ≡ₚ l.
Proof.
  induction l as [|x l IH]; simpl; [done|].
  by rewrite insert_by_perm, IH.
Qed.

Lemma elem_of_sort_by x l : x ∈ sort_by leb l ↔ x ∈ l.
Proof. by rewrite sort_by_perm. Qed.
End SortingFacts.

(** ** Conflicts *)

Lemma intervals_conflict_true s1 e1 s2 e2 :
  intervals_conflict s1 e1 s2 e2 = true ↔ 0 < overlap_minutes s1 e1 s2 e2.
Proof. unfold intervals_conflict. apply Z.ltb_lt. Qed.

(** A positive overlap: both intervals are proper and each starts strictly
    before the other ends. *)
Lemma intervals_conflict_bounds s1 e1 s2 e2 :
  intervals_conflict s1 e1 s2 e2 = true ↔ s1 < e1 ∧ s2 < e2 ∧ s1 < e2 ∧ s2 < e1.
Proof. rewrite intervals_conflict_true. unfold overlap_minutes. lia. Qed.

Lemma intervals_conflict_false s1 e1 s2 e2 :
  intervals_conflict s1 e1 s2 e2 = false ↔ overlap_minutes s1 e1 s2 e2 ≤ 0.
Proof. unfold intervals_conflict. apply Z.ltb_ge. Qed.

Lemma intervals_conflict_touching s m e :
  intervals_conflict s m m e = false ∧ intervals_conflict m e s m = false.
Proof. rewrite !intervals_conflict_false. unfold overlap_minutes. lia. Qed.

Lemma intervals_conflict_sym s1 e1 s2 e2 :
  intervals_conflict s1 e1 s2 e2 = intervals_conflict s2 e2 s1 e1.
Proof.
  unfold intervals_conflict, overlap_minutes.
  by rewrite (Z.min_comm e1 e2), (Z.max_comm s1 s2).
Qed.

(** A positive overlap is a minute that lies in both intervals. *)
Lemma intervals_conflict_shared_minute s1 e1 s2 e2 :
  intervals_conflict s1 e1 s2 e2 = true ↔ ∃ t, s1 ≤ t < e1 ∧ s2 ≤ t < e2.
Proof.
  rewrite intervals_conflict_bounds. split.
  - intros (? & ? & ? & ?). exists (Z.max s1 s2). lia.
  - intros (t & Ha & Hb). lia.
Qed.

Lemma check_time_conflicts_elem events s e x :
  x ∈ _check_time_conflicts events s e
  ↔ x ∈ events ∧ intervals_conflict s e (ev_start x) (ev_end x) = true.
Proof. unfold _check_time_conflicts. rewrite list_elem_of_filter. tauto. Qed.

Lemma check_time_conflicts_nil events s e :
  _check_time_conflicts events s e = []
  ↔ ∀ x, x ∈ events → intervals_conflict s e (ev_start x) (ev_end x) = false.
Proof.
  split.
  - intros Hnil x Hx. apply not_true_iff_false. intros Hc.
    assert (x ∈ _check_time_conflicts events s e) as Hin
      by (apply check_time_conflicts_elem; done).
    rewrite Hnil in Hin. by apply elem_of_nil in Hin.
  - intros Hall. destruct (_check_time_conflicts events s e) as [|x l] eqn:E; [done|].
    assert (x ∈ _check_time_conflicts events s e) as Hin by (rewrite E; left).
    apply check_time_conflicts_elem in Hin as [Hx Hc].
    rewrite (Hall x Hx) in Hc. done.
Qed.

(** The calendar's listing hands [check_availability] every event that can
    conflict with the requested interval. *)
Lemma events_list_conflicts self s e l :
  CalendarService.events_list self s e = Ok l →
  ∀ x, x ∈ _check_time_conflicts l s e
       ↔ x ∈ _check_time_conflicts (CalendarService.events self) s e.
Proof.
  unfold CalendarService.events_list. destruct (CalendarService.api_up self); [|done].
  intros [= <-] x. rewrite !check_time_conflicts_elem, elem_of_sort_by, list_elem_of_filter.
  rewrite intervals_conflict_bounds. tauto.
Qed.

Lemma events_list_up self s e :
  CalendarService.api_up self = true →
  ∃ l, CalendarService.events_list self s e = Ok l.
Proof. intros H. unfold CalendarService.events_list. rewrite H. eauto. Qed.

Lemma events_list_down self s e :
  CalendarService.api_up self = false →
  CalendarService.events_list self s e = Raise (HttpError "calendar").
Proof. intros H. unfold CalendarService.events_list. by rewrite H. Qed.

Lemma nil_iff_no_elem {A} (l : list A) : l = [] ↔ ∀ x, x ∉ l.
Proof.
  split; [intros -> x; apply not_elem_of_nil|].
  destruct l as [|a l]; [done|]. intros H. destruct (H a). left.
Qed.

(** C4: two intervals conflict exactly when they overlap by a positive
    duration, that is when some minute lies in both, so that intervals
    touching at an endpoint do not; and, when the calendar answers,
    [check_availability] returns a dictionary whose [available] is [True]
    exactly when the conflicts of the request among the events of the
    calendar are empty, that is when no event conflicts with the requested
    interval. *)
Theorem check_availability_conflict_free
    (self : CalendarService.t) (appointment_date appointment_time duration : Z)
    (s1 e1 s2 e2 : Z) :
  CalendarService.api_up self = true →
  let start_datetime :=
    CalendarService._parse_appointment_datetime appointment_date appointment_time in
  let end_datetime := start_datetime + duration in
  (intervals_conflict s1 e1 s2 e2 = true ↔ 0 < overlap_minutes s1 e1 s2 e2)
  ∧ (intervals_conflict s1 e1 s2 e2 = true ↔ ∃ t, s1 ≤ t < e1 ∧ s2 ≤ t < e2)
  ∧ intervals_conflict s1 e1 e1 e2 = false
  ∧ intervals_conflict e1 e2 s1 e1 = false
  ∧ ∃ r, CalendarService.check_availability self
           appointment_date appointment_time duration = Ok r
         ∧ (av_available r = Some true ∨ av_available r = Some false)
         ∧ (av_available r = Some true
            ↔ _check_time_conflicts (CalendarService.events self)
                start_datetime end_datetime = [])
         ∧ (av_available r = Some true
            ↔ ∀ x, x ∈ CalendarService.events self →
                   intervals_conflict start_datetime end_datetime
                     (ev_start x) (ev_end x) = false).
Proof.
  intros Hup s e. subst e. split; [apply intervals_conflict_true|].
  split; [apply intervals_conflict_shared_minute|].
  split; [apply intervals_conflict_touching|].
  split; [apply intervals_conflict_touching|].
  pose proof (check_time_conflicts_nil (CalendarService.events self) s (s + duration))
    as Hall.
  unfold CalendarService.check_availability. fold s.
  destruct (events_list_up self s (s + duration) Hup) as [l Hl].
  rewrite Hl. simpl.
  pose proof (events_list_conflicts self s (s + duration) l Hl) as Hsame.
  assert (_check_time_conflicts l s (s + duration) = []
          ↔ _check_time_conflicts (CalendarService.events self) s (s + duration) = [])
    as Hnil.
  { rewrite !nil_iff_no_elem. split; intros H x Hx; apply (H x), Hsame, Hx. }
  destruct (_check_time_conflicts l s (s + duration)) as [|x c] eqn:E.
  - eexists. split; [done|]. simpl. split; [by left|].
    rewrite <- Hall.
    assert (_check_time_conflicts (CalendarService.events self) s (s + duration) = [])
      by (by apply Hnil).
    done.
  - eexists. split; [done|]. simpl. split; [by right|].
    rewrite <- Hall.
    assert (_check_time_conflicts (CalendarService.events self) s (s + duration) ≠ [])
      by (intros H%Hnil; done).
    split; (split; [done|]); intros H'; done.
Qed.

Lemma check_availability_conflict_free_witness :
  ∃ r, CalendarService.check_availability sample_calendar 20157 630 30 = Ok r
       ∧ av_available r = Some true.
Proof.
  destruct (check_availability_conflict_free sample_calendar 20157 630 30 0 1 2 3 eq_refl)
    as (_ & _ & _ & _ & r & Hr & _ & Hiff & _).
  exists r. split; [exact Hr|]. apply Hiff. reflexivity.
Defined.

(** ** Alternative slots *)

Lemma slots_overlap_sym a b : slots_overlap a b = slots_overlap b a.
Proof. apply intervals_conflict_sym. Qed.

Lemma within_working_hours_true cfg s :
  SlotAllocator.within_working_hours cfg s = true
  ↔ working_day cfg (slot_date s) = true
    ∧ work_start cfg ≤ slot_time s
    ∧ slot_time s + slot_duration s ≤ work_end cfg.
Proof.
  unfold SlotAllocator.within_working_hours.
  rewrite !andb_true_iff, !Z.leb_le. tauto.
Qed.

Lemma candidates_elem cfg events date doctor windowDays s :
  s ∈ SlotAllocator.candidates cfg events date doctor windowDays →
  SlotAllocator.within_working_hours cfg s = true
  ∧ SlotAllocator.free_of_conflicts events s = true.
Proof.
  unfold SlotAllocator.candidates. rewrite list_elem_of_filter.
  intros [H _]. by apply andb_true_iff in H.
Qed.

Lemma select_consistent_length ranked : ∀ chosen count,
  (length (SlotAllocator.select_consistent ranked chosen count) ≤ count)%nat.
Proof.
  induction ranked as [|s rest IH]; intros chosen count; simpl; [lia|].
  destruct count as [|n]; [simpl; lia|].
  destruct (forallb _ chosen).
  - simpl. specialize (IH (s :: chosen) n). lia.
  - apply IH.
Qed.

Lemma select_consistent_elem ranked : ∀ chosen count x,
  x ∈ SlotAllocator.select_consistent ranked chosen count → x ∈ ranked.
Proof.
  induction ranked as [|s rest IH]; intros chosen count x; simpl; [done|].
  destruct count as [|n]; [by intros ?%elem_of_nil|].
  destruct (forallb _ chosen).
  - intros [->|Hx]%elem_of_cons; [left|right; eauto].
  - intros Hx. right. eauto.
Qed.

(** Every slot kept is clear of those chosen before it, and the slots kept
    are pairwise clear of each other. *)
Lemma select_consistent_clear ranked : ∀ chosen count,
  Forall (λ x, Forall (λ c, slots_overlap c x = false) chosen)
    (SlotAllocator.select_consistent ranked chosen count)
  ∧ ForallOrdPairs (λ a b, slots_overlap a b = false)
      (SlotAllocator.select_consistent ranked chosen count).
Proof.
  induction ranked as [|s rest IH]; intros chosen count; simpl.
  { split; constructor. }
  destruct count as [|n]; [split; constructor|].
  destruct (forallb _ chosen) eqn:Hclear; [|apply IH].
  destruct (IH (s :: chosen) n) as [Hprev Hpairs]. split.
  - constructor.
    + apply Forall_forall. intros c Hc.
      rewrite forallb_forall in Hclear.
      apply negb_true_iff, Hclear, list_elem_of_In, Hc.
    + eapply Forall_impl; [exact Hprev|]. intros x Hx. by inversion Hx.
  - constructor; [|exact Hpairs].
    eapply Forall_impl; [exact Hprev|]. intros x Hx. by inversion Hx.
Qed.

(** C5: the slots the suggester returns are pairwise free of overlap, each
    lies on a working day inside the configured working hours, and there
    are at most [count] of them, so at most 5 when [check_availability]
    asks for alternatives. *)
Theorem suggest_consistent_slots
    (cfg : WorkingHours) (events : list Event) (date time : Z)
    (doctor : option string) (windowDays count : nat)
    (self : CalendarService.t) (start_datetime : Z) (conflicts : list Event) :
  let slots := SlotAllocator.suggest cfg events date time doctor windowDays count in
  ForallOrdPairs (λ a b, slots_overlap a b = false ∧ slots_overlap b a = false) slots
  ∧ Forall (λ s, working_day cfg (slot_date s) = true
                 ∧ work_start cfg ≤ slot_time s
                 ∧ slot_time s + slot_duration s ≤ work_end cfg) slots
  ∧ (length slots ≤ count)%nat
  ∧ (length (CalendarService._suggest_alternative_slots self start_datetime conflicts)
     ≤ 5)%nat.
Proof.
  intros slots. subst slots. unfold CalendarService._suggest_alternative_slots.
  unfold SlotAllocator.suggest. repeat split.
  - destruct (select_consistent_clear
                (SlotAllocator.rank date time doctor
                   (SlotAllocator.candidates cfg events date doctor windowDays)) [] count)
      as [_ Hpairs].
    induction Hpairs as [|a l Ha Hl IH]; constructor; [|exact IH].
    eapply Forall_impl; [exact Ha|]. intros b Hb. simpl in Hb.
    split; [exact Hb|]. by rewrite slots_overlap_sym.
  - apply Forall_forall. intros s Hs.
    apply select_consistent_elem in Hs. unfold SlotAllocator.rank in Hs.
    apply elem_of_sort_by, candidates_elem in Hs as [Hs _].
    by apply within_working_hours_true.
  - apply select_consistent_length.
  - apply select_consistent_length.
Qed.

(** With the default policy (30-minute slots on a 30-minute grid) the
    mutual validation never rejects a candidate: the suggestion is the
    first [count] candidates in ranked order. *)
Lemma default_candidate_shape events date doctor windowDays s :
  s ∈ SlotAllocator.candidates default_hours events date doctor windowDays →
  ∃ d k : nat,
    (k ≤ 18)%nat
    ∧ s = {| slot_date := date + Z.of_nat d;
             slot_time := 540 + Z.of_nat k * 30;
             slot_duration := 30;
             slot_doctor := doctor;
             slot_department := None |}.
Proof.
  unfold SlotAllocator.candidates. rewrite list_elem_of_filter.
  intros [_ Hs]. apply list_elem_of_bind in Hs as (d & Hs & _).
  unfold SlotAllocator.day_slots in Hs.
  apply list_elem_of_fmap in Hs as (k & -> & Hk).
  apply elem_of_seq in Hk. exists d, k. split; [|reflexivity].
  change (SlotAllocator.steps_per_day default_hours) with 19%nat in Hk. lia.
Qed.

Lemma default_candidates_apart events date doctor windowDays a b :
  a ∈ SlotAllocator.candidates default_hours events date doctor windowDays →
  b ∈ SlotAllocator.candidates default_hours events date doctor windowDays →
  a ≠ b → slots_overlap a b = false.
Proof.
  intros (d1 & k1 & Hk1 & ->)%default_candidate_shape
         (d2 & k2 & Hk2 & ->)%default_candidate_shape Hne.
  apply intervals_conflict_false.
  unfold overlap_minutes, slot_end, slot_start, minutes_per_day. simpl.
  assert (d1 ≠ d2 ∨ k1 ≠ k2) as Hdk.
  { destruct (decide (d1 = d2)) as [->|]; [|by left].
    destruct (decide (k1 = k2)) as [->|]; [|by right]. done. }
  lia.
Qed.

Lemma day_slots_NoDup cfg date doctor :
  step_minutes cfg ≠ 0 → NoDup (SlotAllocator.day_slots cfg date doctor).
Proof.
  intros Hstep. unfold SlotAllocator.day_slots.
  apply NoDup_fmap_2_strong; [|apply NoDup_seq].
  intros k1 k2 _ _ [= H]. nia.
Qed.

Lemma default_candidates_NoDup events date doctor windowDays :
  NoDup (SlotAllocator.candidates default_hours events date doctor windowDays).
Proof.
  unfold SlotAllocator.candidates. apply NoDup_filter, NoDup_bind.
  - intros d1 d2 s _ _ H1 H2. unfold SlotAllocator.day_slots in H1, H2.
    apply list_elem_of_fmap in H1 as (k1 & -> & _).
    apply list_elem_of_fmap in H2 as (k2 & [= H _] & _). lia.
  - intros d _. by apply day_slots_NoDup.
  - apply NoDup_seq.
Qed.

Lemma apart_ordered_pairs (l : list AppointmentSlot) :
  NoDup l →
  (∀ a b, a ∈ l → b ∈ l → a ≠ b → slots_overlap a b = false) →
  ForallOrdPairs (λ a b, slots_overlap a b = false) l.
Proof.
  induction 1 as [|x l Hx Hl IH]; intros Hapart; constructor.
  - apply Forall_forall. intros b Hb. apply Hapart; [left|by right|].
    intros ->. done.
  - apply IH. intros a b Ha Hb. apply Hapart; by right.
Qed.

Lemma select_consistent_take ranked : ∀ chosen count,
  ForallOrdPairs (λ a b, slots_overlap a b = false) ranked →
  Forall (λ x, Forall (λ c, slots_overlap c x = false) chosen) ranked →
  SlotAllocator.select_consistent ranked chosen count = take count ranked.
Proof.
  induction ranked as [|s rest IH]; intros chosen count Hpairs Hchosen.
  { by destruct count. }
  destruct count as [|n]; [done|]. simpl.
  inversion Hpairs as [|? ? Hs Hrest]; subst.
  inversion Hchosen as [|? ? Hcs Hcrest]; subst.
  assert (forallb (λ c, negb (slots_overlap c s)) chosen = true) as ->.
  { apply forallb_forall. intros c Hc. apply negb_true_iff.
    rewrite Forall_forall in Hcs. apply Hcs, list_elem_of_In, Hc. }
  f_equal. apply IH; [done|].
  apply Forall_forall. intros x Hx. constructor.
  - rewrite Forall_forall in Hs. by apply Hs.
  - rewrite Forall_forall in Hcrest. by apply Hcrest.
Qed.

Lemma suggest_default_first_count events date time doctor windowDays count :
  SlotAllocator.suggest default_hours events date time doctor windowDays count
  = take count
      (SlotAllocator.rank date time doctor
         (SlotAllocator.candidates default_hours events date doctor windowDays)).
Proof.
  unfold SlotAllocator.suggest. apply select_consistent_take.
  - apply apart_ordered_pairs.
    + unfold SlotAllocator.rank. rewrite sort_by_perm. apply default_candidates_NoDup.
    + unfold SlotAllocator.rank. intros a b Ha%elem_of_sort_by Hb%elem_of_sort_by.
      by apply (default_candidates_apart events date doctor windowDays).
  - apply Forall_forall. intros x _. constructor.
Qed.

(** On a finer grid the validation does matter: with 30-minute slots
    every 15 minutes the ranked candidates overlap, the slots returned
    do not. *)
Example suggest_quarter_hour_grid :
  let cfg := {| work_start := 540; work_end := 1080; step_minutes := 15;
                slot_minutes := 30; working_day := λ _, true |} in
  slot_time <$> take 4 (SlotAllocator.rank 20157 600 None
                          (SlotAllocator.candidates cfg [] 20157 None 1))
  = [600; 585; 615; 570]
  ∧ slot_time <$> SlotAllocator.suggest cfg [] 20157 600 None 1 4
    = [600; 570; 630; 540].
Proof. vm_compute. done. Qed.

(** ** Customer detection *)

Lemma identify_spec_functional phone g r g' :
  identify_spec phone g r g' → detect_customer_type phone g = (r, g').
Proof.
  unfold detect_customer_type.
  destruct 1 as [info Hc|sheets rec Hc Hs Hr|Hc Hs].
  - by rewrite Hc.
  - by rewrite Hc, Hs, Hr.
  - rewrite Hc. destruct (global_sheets_service g) as [sheets|]; [|done].
    by rewrite (Hs sheets eq_refl).
Qed.

Lemma detect_customer_type_sound phone g :
  identify_spec phone g (detect_customer_type phone g).1 (detect_customer_type phone g).2.
Proof.
  unfold detect_customer_type.
  destruct (patient_database g !! phone) as [info|] eqn:Hc; simpl.
  { by constructor. }
  destruct (global_sheets_service g) as [sheets|] eqn:Hs; simpl.
  - destruct (get_patient_by_phone sheets phone) as [rec|] eqn:Hr; simpl.
    + by econstructor.
    + constructor; [done|]. intros sheets' Hs'. congruence.
  - constructor; [done|]. intros sheets' Hs'. congruence.
Qed.

(** C7: [detect_customer_type] follows the resolution order of the design
    and nothing else: its answer and the state it leaves are exactly those
    of the three rules (cached: existing, the cache untouched; stored only:
    returning, the converted record pulled into the cache; neither: new, no
    record and no change). *)
Theorem detect_customer_type_resolution
    (phone : Phone) (g : Globals) (r : string * option PatientInfo) (g' : Globals) :
  detect_customer_type phone g = (r, g') ↔ identify_spec phone g r g'.
Proof.
  split; [|apply identify_spec_functional].
  intros H. pose proof (detect_customer_type_sound phone g) as Hs.
  by rewrite H in Hs.
Qed.

(** What each rule leaves in the session cache. *)
Lemma detect_customer_type_cache phone g r g' :
  detect_customer_type phone g = (r, g') →
  match r.2 with
  | Some info => patient_database g' !! phone = Some info
  | None => patient_database g' = patient_database g
            ∧ patient_database g !! phone = None
  end
  ∧ (∀ other, other ≠ phone → patient_database g' !! other = patient_database g !! other)
  ∧ session_call_records g' = session_call_records g
  ∧ saved_call_records g' = saved_call_records g.
Proof.
  intros Heq. pose proof (detect_customer_type_sound phone g) as H.
  rewrite Heq in H. simpl in H.
  destruct H as [info Hc|sheets rec Hc Hs Hr|Hc Hs]; simpl.
  - done.
  - rewrite lookup_insert_eq. repeat split; [|done..].
    intros other Hne. by rewrite lookup_insert_ne.
  - done.
Qed.

(** ** Call records *)

(** C9: an update for a session id with no entry in [session_call_records]
    returns at once and leaves the whole state as it was. *)
Theorem update_call_record_unknown_session
    (session_id function_name : string) (arguments : gmap string string) (g : Globals) :
  session_call_records g !! session_id = None →
  update_call_record_from_function session_id function_name arguments g = g.
Proof.
  intros H. unfold update_call_record_from_function. by rewrite H.
Qed.

Lemma update_call_record_unknown_session_witness :
  update_call_record_from_function "s-2" "book_appointment" booking_arguments sample_globals
  = sample_globals.
Proof.
  apply (update_call_record_unknown_session "s-2" "book_appointment"
           booking_arguments sample_globals).
  reflexivity.
Defined.

(** On the session that is there, the same call does change the record and
    pulls the stored patient into session memory. *)
Example update_call_record_known_session :
  let g := update_call_record_from_function "s-1" "book_appointment"
             booking_arguments sample_globals in
  (customer_name <$> session_call_records g !! "s-1"%string) = Some "John Smith"%string
  ∧ (call_type <$> session_call_records g !! "s-1"%string) = Some "appointment_booking"%string
  ∧ (fst <$> (session_call_records g !! "s-1"%string ≫= customer_type))
    = Some "returning"%string
  ∧ patient_database g !! Some "+91-9876543210"%string = Some (convert_to_dict sample_patient).
Proof. vm_compute. done. Qed.

(** ** Finalising a session *)

(** *** The duration: [int(total_seconds())] *)

Lemma round_half_even_bounds num den :
  num / den ≤ SessionManager.round_half_even num den ≤ num / den + 1.
Proof.
  unfold SessionManager.round_half_even.
  destruct (_ <? _); [lia|]. destruct (_ <? _); [lia|]. destruct (Z.even _); lia.
Qed.

(** A ratio scaled by more than its denominator before it is rounded has
    its integer part intact after the rounding. *)
Lemma scaled_division_truncates a d s :
  0 ≤ a → 0 < d → d < s →
  SessionManager.round_half_even (a * s) d / s = a / d.
Proof.
  intros Ha Hd Hs.
  pose proof (round_half_even_bounds (a * s) d) as Hm.
  pose proof (Z.div_mod a d ltac:(lia)) as Ha'.
  pose proof (Z.mod_pos_bound a d Hd) as Hr.
  pose proof (Z.div_mod (a * s) d ltac:(lia)) as Hf.
  pose proof (Z.mod_pos_bound (a * s) d Hd) as Hfr.
  set (m := SessionManager.round_half_even (a * s) d) in *.
  set (q := a / d) in *. set (r := a mod d) in *.
  set (f := a * s / d) in *. set (fr := (a * s) mod d) in *.
  assert (q * s ≤ f) by nia.
  assert (f + 1 < (q + 1) * s) by nia.
  symmetry. apply (Z.div_unique m s q (m - q * s)); [lia|lia].
Qed.

Lemma int_of_true_division_whole a :
  0 < a < 2 ^ 33 * SessionManager.microseconds_per_second →
  SessionManager.int_of_true_division a SessionManager.microseconds_per_second
  = a / SessionManager.microseconds_per_second.
Proof.
  intros [Hpos Hlt]. unfold SessionManager.int_of_true_division.
  change (Z.log2 SessionManager.microseconds_per_second) with 19.
  assert (0 ≤ Z.log2 a < 53) as Hlog.
  { split; [apply Z.log2_nonneg|]. apply Z.log2_lt_pow2; [done|].
    unfold SessionManager.microseconds_per_second in Hlt. lia. }
  set (k := Z.log2 a - 19).
  set (at_least_2k := if 0 <=? k then _ else _).
  assert ((if at_least_2k then k else k - 1) - 52 ≤ -20) as Hexp.
  { destruct (decide (k = 33)) as [Hk|Hk].
    - assert (at_least_2k = false) as ->; [|lia].
      subst at_least_2k. rewrite Hk. simpl (0 <=? 33).
      apply Z.leb_gt. exact Hlt.
    - destruct at_least_2k; lia. }
  set (exponent := _ - 52) in *.
  destruct (0 <=? exponent) eqn:Hsign; [apply Z.leb_le in Hsign; lia|].
  apply scaled_division_truncates; [lia|done|].
  apply Z.lt_le_trans with (2 ^ 20); [done|].
  apply Z.pow_le_mono_r; lia.
Qed.

(** X27: the duration [cleanup_session] computes, [int] of the float
    [total_seconds()], is the whole number of seconds in the span, rounded
    towards zero, for every span shorter than [2 ^ 33] seconds (some 272
    years), forwards or backwards. *)
Lemma duration_whole_seconds (microseconds : Z) :
  Z.abs microseconds < 2 ^ 33 * SessionManager.microseconds_per_second →
  SessionManager.int_total_seconds microseconds
  = microseconds `quot` SessionManager.microseconds_per_second.
Proof.
  intros H. unfold SessionManager.int_total_seconds.
  destruct (microseconds =? 0) eqn:Hz.
  - apply Z.eqb_eq in Hz. by subst.
  - apply Z.eqb_neq in Hz.
    rewrite int_of_true_division_whole by lia.
    destruct (Z.abs_spec microseconds) as [[? ->]|[? ->]].
    + rewrite Z.sgn_pos by lia. rewrite Z.quot_div_nonneg by done. lia.
    + rewrite Z.sgn_neg by lia.
      rewrite <- (Z.opp_involutive microseconds) at 2.
      rewrite Z.quot_opp_l by done.
      rewrite Z.quot_div_nonneg by (try done; lia). lia.
Qed.

Lemma duration_whole_seconds_witness :
  SessionManager.int_total_seconds 60500000 = 60
  ∧ SessionManager.int_total_seconds (-1500000) = -1.
Proof.
  split.
  - rewrite (duration_whole_seconds 60500000); [reflexivity|].
    unfold SessionManager.microseconds_per_second. simpl. lia.
  - rewrite (duration_whole_seconds (-1500000)); [reflexivity|].
    unfold SessionManager.microseconds_per_second. simpl. lia.
Defined.

(** Beyond that the float has fewer digits than the span: a little over a
    thousand years, one microsecond short of a full second, come out as
    the next second. *)
Lemma duration_rounds_up_far_out :
  SessionManager.int_total_seconds 32351788800999999 = 32351788801
  ∧ 32351788800999999 `quot` SessionManager.microseconds_per_second = 32351788800.
Proof. split; vm_compute; reflexivity. Qed.


Lemma cleanup_session_unknown now session_id g :
  session_call_records g !! session_id = None →
  SessionManager.cleanup_session now session_id g
  = (Ok (), set_active_sessions (delete session_id (active_sessions g)) g).
Proof. intros H. unfold SessionManager.cleanup_session. by rewrite H. Qed.

Lemma cleanup_session_known now session_id g r st :
  session_call_records g !! session_id = Some r →
  start_time r = Assigned st →
  SessionManager.cleanup_session now session_id g
  = (Ok (),
     {| active_sessions := delete session_id (active_sessions g);
        session_call_records := delete session_id (session_call_records g);
        patient_database := patient_database g;
        global_sheets_service := global_sheets_service g;
        saved_call_records := saved_call_records g ++ [finalized now st r] |}).
Proof.
  intros Hr Hst. unfold SessionManager.cleanup_session. rewrite Hr, Hst.
  by destruct st.
Qed.

(** A record as [__init__] leaves it has no [start_time]: finalising it
    raises and neither persists nor removes anything. *)
Lemma cleanup_session_unset_start_time now session_id g r :
  session_call_records g !! session_id = Some r →
  start_time r = Unset →
  SessionManager.cleanup_session now session_id g
  = (Raise (AttributeError "CallRecord" "start_time"), g).
Proof. intros Hr Hst. unfold SessionManager.cleanup_session. by rewrite Hr, Hst. Qed.

(** X3: a session as [create_session] makes it cannot be finalised: its
    record has no [start_time], so [cleanup_session] raises and leaves the
    state as it was. *)
Lemma create_then_cleanup_raises session_uuid call_uuid now later voice_id g :
  let created := SessionManager.create_session session_uuid call_uuid now voice_id g in
  SessionManager.cleanup_session later created.1 created.2
  = (Raise (AttributeError "CallRecord" "start_time"), created.2).
Proof.
  simpl. eapply cleanup_session_unset_start_time; [apply lookup_insert_eq|done].
Qed.

(** C8 at its failing input: a session as [create_session] makes it,
    finalised twice.  [CallRecord.__init__] assigns [timestamp] and no
    [start_time], which [cleanup_session] reads first: both calls raise
    [AttributeError] before the duration is computed, before the record is
    persisted and before the entries are deleted.  The record is persisted
    zero times, not once, it keeps no duration, and the session stays in
    both maps. *)
Theorem cleanup_created_session_twice
    (session_uuid call_uuid voice_id : string) (now later latest : Z) (g : Globals) :
  let created := SessionManager.create_session session_uuid call_uuid now voice_id g in
  let first := SessionManager.cleanup_session later created.1 created.2 in
  let second := SessionManager.cleanup_session latest created.1 first.2 in
  first = (Raise (AttributeError "CallRecord" "start_time"), created.2)
  ∧ second = (Raise (AttributeError "CallRecord" "start_time"), created.2)
  ∧ saved_call_records second.2 = saved_call_records g
  ∧ session_call_records second.2 !! created.1
    = Some (CallRecord_init call_uuid now session_uuid None)
  ∧ (duration_seconds <$> session_call_records second.2 !! created.1) = Some None
  ∧ is_Some (active_sessions second.2 !! created.1).
Proof.
  intros created first second.
  assert (session_call_records created.2 !! created.1
          = Some (CallRecord_init call_uuid now session_uuid None)) as Hrecord
    by (subst created; simpl; apply lookup_insert_eq).
  assert (first = (Raise (AttributeError "CallRecord" "start_time"), created.2))
    as Hfirst
    by (subst first; eapply cleanup_session_unset_start_time; [exact Hrecord|done]).
  assert (second = (Raise (AttributeError "CallRecord" "start_time"), created.2))
    as Hsecond.
  { subst second. rewrite Hfirst. simpl.
    eapply cleanup_session_unset_start_time; [exact Hrecord|done]. }
  split; [exact Hfirst|]. split; [exact Hsecond|]. rewrite Hsecond.
  cbn [snd]. rewrite Hrecord.
  split; [done|]. split; [done|]. split; [done|].
  subst created. simpl. rewrite lookup_insert_eq. eauto.
Qed.

(** ** Booking: verify, then commit *)

(** X1: when the availability check of the verify phase raises, the
    handler raises with it: the check is its only effect, no reply is
    given and no commit effect is attempted. *)
Lemma book_check_raises svc arguments w e :
  cs_check_availability svc (calendar w)
    (arg_appointment_date arguments) (arg_appointment_time arguments) = Raise e →
  handle_book_appointment svc arguments w
  = (Raise e, emit (CheckAvailability (arg_appointment_date arguments)
                      (arg_appointment_time arguments)) w).
Proof.
  intros H. unfold handle_book_appointment, m_bind, call_check_availability.
  simpl. by rewrite H.
Qed.

Lemma book_check_raises_witness :
  handle_book_appointment the_calendar_service (booking_at 600) calendar_down_world
  = (Raise (HttpError "calendar"),
     emit (CheckAvailability 20157 600) calendar_down_world).
Proof.
  apply (book_check_raises the_calendar_service (booking_at 600) calendar_down_world).
  reflexivity.
Defined.

Lemma book_refused svc arguments w d :
  cs_check_availability svc (calendar w)
    (arg_appointment_date arguments) (arg_appointment_time arguments) = Ok d →
  av_available d = Some false →
  handle_book_appointment svc arguments w
  = result_callback (unavailable_reply d)
      (emit (CheckAvailability (arg_appointment_date arguments)
               (arg_appointment_time arguments)) w).
Proof.
  intros H Hav. unfold handle_book_appointment, m_bind, call_check_availability.
  simpl. rewrite H, Hav. done.
Qed.

(** The commit phase, entered whenever [available] is not [False]. *)
Lemma book_committed svc arguments w d :
  cs_check_availability svc (calendar w)
    (arg_appointment_date arguments) (arg_appointment_time arguments) = Ok d →
  av_available d ≠ Some false →
  let pd := extract_patient_data arguments in
  let w1 := emit (SendConfirmationEmail pd)
              (emit (CheckAvailability (pd_date pd) (pd_time pd)) w) in
  let w2 := if gmail_api_up w then set_gmail_sent (gmail_sent w ++ [pd_email pd]) w1 else w1 in
  let w3 := emit (CreateCalendarEvent pd) w2 in
  let w4 := if calendar_accepts_insert w
            then set_calendar
                   {| CalendarService.events :=
                        CalendarService.events (calendar w) ++ [event_of_patient_data pd];
                      CalendarService.api_up := CalendarService.api_up (calendar w) |} w3
            else w3 in
  let w5 := set_call_log (call_log w ++ [pd]) (emit (LogCallRecord pd) w4) in
  handle_book_appointment svc arguments w
  = result_callback
      (confirmed_reply (Some (gmail_api_up w)) (Some (calendar_accepts_insert w)) pd) w5.
Proof.
  intros H Hav. unfold handle_book_appointment, m_bind, call_check_availability.
  simpl. rewrite H.
  assert (negb (default true (av_available d)) = false) as ->.
  { destruct (av_available d) as [[]|]; done. }
  unfold send_confirmation_email, GmailService.send_appointment_confirmation,
    create_calendar_event, log_call_record. cbn.
  destruct (gmail_api_up w) eqn:Hg; cbn;
    destruct (calendar_accepts_insert w) eqn:Hc; cbn; reflexivity.
Qed.

(** C1, as the code has it: the availability check on the requested date
    and time is the first effect of a booking.  When it answers
    [available = False] the reply is [success = False] with the check's
    alternatives and no commit effect is attempted: calendar, mail, call
    log, patient store and call records are as before.  When it answers
    [available = True] the commit effects are attempted in the order
    confirmation e-mail, calendar event, call logging, and the reply is
    [success = True]. *)
Theorem book_verify_then_commit
    (svc : calendar_service) (arguments : BookingArguments) (w : World)
    (d : AvailabilityDict) (b : bool) :
  cs_check_availability svc (calendar w)
    (arg_appointment_date arguments) (arg_appointment_time arguments) = Ok d →
  av_available d = Some b →
  let pd := extract_patient_data arguments in
  ∃ reply w',
    handle_book_appointment svc arguments w = (Ok (), w')
    ∧ callbacks w' = callbacks w ++ [reply]
    ∧ rp_success reply = b
    ∧ if b
      then trace w' = trace w ++ [CheckAvailability (pd_date pd) (pd_time pd);
                                  SendConfirmationEmail pd;
                                  CreateCalendarEvent pd;
                                  LogCallRecord pd;
                                  ResultCallback reply]
      else trace w' = trace w ++ [CheckAvailability (pd_date pd) (pd_time pd);
                                  ResultCallback reply]
           ∧ rp_alternatives reply = Some (default [] (av_alternatives d))
           ∧ calendar w' = calendar w
           ∧ gmail_sent w' = gmail_sent w
           ∧ call_log w' = call_log w
           ∧ globals w' = globals w.
Proof.
  intros H Hav pd. destruct b.
  - rewrite (book_committed svc arguments w d H) by (rewrite Hav; done).
    exists (confirmed_reply (Some (gmail_api_up w)) (Some (calendar_accepts_insert w)) pd).
    eexists. split; [reflexivity|].
    destruct (gmail_api_up w), (calendar_accepts_insert w); cbn;
      rewrite <- !app_assoc; done.
  - rewrite (book_refused svc arguments w d H Hav).
    exists (unavailable_reply d). eexists. split; [reflexivity|]. cbn.
    rewrite <- !app_assoc. done.
Qed.

Lemma book_verify_then_commit_witness :
  ∃ reply w',
    handle_book_appointment the_calendar_service (booking_at 600) sample_world = (Ok (), w')
    ∧ rp_success reply = false
    ∧ length <$> rp_alternatives reply = Some 5%nat
    ∧ callbacks w' = [reply]
    ∧ calendar w' = sample_calendar
    ∧ gmail_sent w' = []
    ∧ call_log w' = [].
Proof.
  destruct (book_verify_then_commit the_calendar_service (booking_at 600) sample_world
              busy_answer false) as (reply & w' & H & Hcb & Hs & _ & Halt & Hc & Hg & Hl & _).
  - vm_compute. reflexivity.
  - reflexivity.
  - exists reply, w'. rewrite Halt. repeat split; assumption || reflexivity.
Defined.

(** The order the design gives to the commit (calendar event first, then
    the e-mail, the patient upsert and the call-record update) is not the
    handler's: on a free slot it makes three calls, and the e-mail goes
    out before the calendar event is created. *)
Lemma book_commit_order_differs :
  let pd := extract_patient_data (booking_at 630) in
  let out := handle_book_appointment the_calendar_service (booking_at 630) sample_world in
  out.1 = Ok ()
  ∧ trace out.2
    = [CheckAvailability 20157 630;
       SendConfirmationEmail pd;
       CreateCalendarEvent pd;
       LogCallRecord pd;
       ResultCallback (confirmed_reply (Some true) (Some true) pd)]
  ∧ trace out.2 !! 1%nat = Some (SendConfirmationEmail pd)
  ∧ trace out.2 !! 2%nat = Some (CreateCalendarEvent pd).
Proof. vm_compute. done. Qed.

(** C3: when the commit phase is reached, the Gmail request fails and the
    calendar accepts the event, the reply is still [success = True] with
    [email_sent = False], and the event stays on the calendar: nothing
    after its creation deletes it. *)
Theorem book_email_failure_keeps_event
    (svc : calendar_service) (arguments : BookingArguments) (w : World)
    (d : AvailabilityDict) :
  cs_check_availability svc (calendar w)
    (arg_appointment_date arguments) (arg_appointment_time arguments) = Ok d →
  av_available d ≠ Some false →
  gmail_api_up w = false →
  calendar_accepts_insert w = true →
  let pd := extract_patient_data arguments in
  ∃ reply w',
    handle_book_appointment svc arguments w = (Ok (), w')
    ∧ callbacks w' = callbacks w ++ [reply]
    ∧ rp_success reply = true
    ∧ rp_email_sent reply = Some (Some false)
    ∧ rp_calendar_added reply = Some (Some true)
    ∧ CalendarService.events (calendar w')
      = CalendarService.events (calendar w) ++ [event_of_patient_data pd]
    ∧ gmail_sent w' = gmail_sent w
    ∧ trace w' = trace w ++ [CheckAvailability (pd_date pd) (pd_time pd);
                             SendConfirmationEmail pd;
                             CreateCalendarEvent pd;
                             LogCallRecord pd;
                             ResultCallback reply].
Proof.
  intros H Hav Hg Hc pd.
  rewrite (book_committed svc arguments w d H Hav), Hg, Hc.
  exists (confirmed_reply (Some false) (Some true) pd). eexists.
  split; [reflexivity|]. cbn. rewrite <- !app_assoc. done.
Qed.

Lemma book_email_failure_keeps_event_witness :
  ∃ reply w',
    handle_book_appointment the_calendar_service (booking_at 630) mail_down_world
    = (Ok (), w')
    ∧ rp_success reply = true
    ∧ rp_email_sent reply = Some (Some false)
    ∧ CalendarService.events (calendar w')
      = [sample_event; event_of_patient_data (extract_patient_data (booking_at 630))].
Proof.
  destruct (book_email_failure_keeps_event the_calendar_service (booking_at 630)
              mail_down_world free_answer)
    as (reply & w' & H & _ & Hs & He & _ & Hev & _).
  - vm_compute. reflexivity.
  - discriminate.
  - reflexivity.
  - reflexivity.
  - exists reply, w'. repeat split; assumption.
Defined.

(** C2, as the code has it.  The handler has no [try] around the check of
    the verify phase.  When [check_availability] raises, the handler raises
    with it: the request to the calendar is its only effect, no reply is
    given and the commit phase is not reached; under the error-recovery
    wrapper the caller is then answered with [success = False] and an
    error type.  When the check returns, its answer always says
    [available = True] or [available = False], never leaves it open; on
    [False] the handler replies with the refusal and stops. *)
Theorem book_stops_on_failed_check
    (classify : exn → error_class) (str : exn → string)
    (result_callback' : WrapperReply → M unit)
    (arguments : BookingArguments) (w : World) :
  let date := arg_appointment_date arguments in
  let time := arg_appointment_time arguments in
  let checked := emit (CheckAvailability date time) w in
  match CalendarService.check_availability (calendar w) date time
          CalendarService.default_duration with
  | Raise e =>
      handle_book_appointment the_calendar_service arguments w = (Raise e, checked)
      ∧ trace checked = trace w ++ [CheckAvailability date time]
      ∧ callbacks checked = callbacks w
      ∧ calendar checked = calendar w
      ∧ gmail_sent checked = gmail_sent w
      ∧ call_log checked = call_log w
      ∧ safe_function_call_handler classify str
          (handle_book_appointment the_calendar_service arguments) result_callback' w
        = result_callback' (error_reply (classify e) (str e)) checked
      ∧ wr_success (error_reply (classify e) (str e)) = false
      ∧ is_Some (wr_error_type (error_reply (classify e) (str e)))
  | Ok d =>
      av_available d = Some true
      ∨ (av_available d = Some false
         ∧ handle_book_appointment the_calendar_service arguments w
           = result_callback (unavailable_reply d) checked
         ∧ trace (handle_book_appointment the_calendar_service arguments w).2
           = trace w ++ [CheckAvailability date time;
                         ResultCallback (unavailable_reply d)])
  end.
Proof.
  intros date time checked.
  destruct (CalendarService.check_availability (calendar w) date time
              CalendarService.default_duration) as [d|e] eqn:Hcheck.
  - assert (av_available d = Some true ∨ av_available d = Some false) as [Hav|Hav].
    { revert Hcheck. unfold CalendarService.check_availability.
      destruct (CalendarService.events_list _ _ _) as [l|e]; simpl; [|done].
      destruct (_check_time_conflicts _ _ _) as [|c cs]; intros [= <-]; simpl; auto. }
    + by left.
    + right. split; [exact Hav|].
      rewrite (book_refused the_calendar_service arguments w d Hcheck Hav).
      split; [done|]. simpl. by rewrite <- app_assoc.
  - assert (handle_book_appointment the_calendar_service arguments w
            = (Raise e, checked)) as Hraise.
    { unfold handle_book_appointment, m_bind, call_check_availability. simpl.
      fold date time. by rewrite Hcheck. }
    repeat split; try done.
    + unfold safe_function_call_handler, m_bind. by rewrite Hraise.
    + by destruct (classify e).
    + destruct (classify e); simpl; eauto.
Qed.

(** The design has a failed check answered as an unavailable slot.  It is
    not: with the calendar request failing, the handler raises and gives
    no reply at all. *)
Lemma book_failed_check_gives_no_reply :
  let out := handle_book_appointment the_calendar_service (booking_at 600)
               calendar_down_world in
  CalendarService.check_availability (calendar calendar_down_world) 20157 600
    CalendarService.default_duration = Raise (HttpError "calendar")
  ∧ out.1 = Raise (HttpError "calendar")
  ∧ (∀ reply, reply ∉ callbacks out.2)
  ∧ trace out.2 = [CheckAvailability 20157 600].
Proof.
  repeat split; try (vm_compute; reflexivity).
  intros reply. vm_compute. apply not_elem_of_nil.
Qed.

(** Whenever the answer has no [available] key the commit phase runs. *)
Lemma book_indeterminate_check_commits svc arguments w d :
  cs_check_availability svc (calendar w)
    (arg_appointment_date arguments) (arg_appointment_time arguments) = Ok d →
  av_available d = None →
  ∃ w', handle_book_appointment svc arguments w = (Ok (), w')
        ∧ SendConfirmationEmail (extract_patient_data arguments) ∈ trace w'
        ∧ CreateCalendarEvent (extract_patient_data arguments) ∈ trace w'
        ∧ (rp_success <$> last (callbacks w')) = Some true.
Proof.
  intros H Hav. rewrite (book_committed svc arguments w d H) by (rewrite Hav; done).
  eexists. split; [reflexivity|].
  destruct (gmail_api_up w), (calendar_accepts_insert w); cbn;
    rewrite last_snoc; repeat split; try done;
    rewrite !elem_of_app, !elem_of_cons; tauto.
Qed.

(** ** Cancellation *)

Lemma matches_located rq e :
  CancellationVerifier.matches rq e = true ↔ CancellationVerifier.located rq e.
Proof.
  unfold CancellationVerifier.matches, CancellationVerifier.located,
    CancellationVerifier.doctor_ok, CancellationVerifier.email_ok,
    CancellationVerifier.tolerance_minutes.
  rewrite !andb_true_iff, Z.eqb_eq, Z.leb_le, String.eqb_eq.
  destruct (CancellationVerifier.doctorName rq) as [d|],
           (CancellationVerifier.email rq) as [a|];
    rewrite ?String.eqb_eq; split.
  all: try (intros ((((? & ?) & ?) & ?) & ?); repeat split; try done; congruence).
  all: intros (? & Hd & ? & ? & Ha); repeat split; auto.
Qed.

Lemma take_first_Some p l e rest :
  CancellationVerifier.take_first p l = Some (e, rest) →
  ∃ l1 l2, l = l1 ++ e :: l2 ∧ rest = l1 ++ l2 ∧ p e = true
           ∧ ∀ x, x ∈ l1 → p x = false.
Proof.
  revert rest. induction l as [|y l IH]; intros rest; simpl; [done|].
  destruct (p y) eqn:Hy.
  - intros [= <- <-]. exists [], l. repeat split; [done|]. by intros x ?%elem_of_nil.
  - destruct (CancellationVerifier.take_first p l) as [[x r]|]; simpl; [|done].
    intros [= <- <-]. destruct (IH r eq_refl) as (l1 & l2 & -> & -> & Hp & Hl1).
    exists (y :: l1), l2. repeat split; [done|].
    intros z [->|Hz]%elem_of_cons; auto.
Qed.

Lemma take_first_None p l :
  CancellationVerifier.take_first p l = None ↔ ∀ x, x ∈ l → p x = false.
Proof.
  induction l as [|y l IH]; simpl.
  - split; [by intros _ x ?%elem_of_nil|done].
  - destruct (p y) eqn:Hy.
    + split; [done|]. intros H. rewrite (H y) in Hy; [done|left].
    + destruct (CancellationVerifier.take_first p l) as [[x r]|]; simpl.
      * split; [done|]. intros H.
        assert (Some (x, r) = None) as [=]. apply IH. intros z Hz. apply H. by right.
      * split; [|done]. intros _ z [->|Hz]%elem_of_cons; [done|]. by apply IH.
Qed.

(** C6: [cancel] reports an appointment found, and removes one, exactly
    when the calendar holds an event on the date, for the doctor if one is
    given, at most 15 minutes from the requested time, under the patient's
    name up to case and under the e-mail if one is given; the event removed
    is the first such event and the rest of the calendar is kept.  Without
    such an event the result is not-found, the world is unchanged, and the
    same request again gives the same result. *)
Theorem cancel_removes_iff_located
    (session : string) (rq : CancellationVerifier.Request) (w : World) :
  let out := CancellationVerifier.cancel session rq w in
  let found := ∃ e, e ∈ CalendarService.events (calendar w)
                    ∧ CancellationVerifier.located rq e in
  (CancellationVerifier.cr_found out.1 = true ↔ found)
  ∧ (CalendarService.events (calendar out.2) ≠ CalendarService.events (calendar w) ↔ found)
  ∧ (found →
     ∃ l1 e l2,
       CalendarService.events (calendar w) = l1 ++ e :: l2
       ∧ CancellationVerifier.located rq e
       ∧ CalendarService.events (calendar out.2) = l1 ++ l2
       ∧ CancellationVerifier.cr_success out.1 = true)
  ∧ (¬ found →
     out = ({| CancellationVerifier.cr_success := false;
               CancellationVerifier.cr_found := false |}, w)
     ∧ CancellationVerifier.cancel session rq out.2 = out).
Proof.
  intros out found. subst out found. unfold CancellationVerifier.cancel.
  destruct (CancellationVerifier.take_first _ _) as [[e rest]|] eqn:Htf.
  - pose proof (take_first_Some _ _ _ _ Htf) as (l1 & l2 & Hl & -> & He & _).
    assert (∃ e0, e0 ∈ CalendarService.events (calendar w)
                  ∧ CancellationVerifier.located rq e0) as Hfound.
    { exists e. split; [|by apply matches_located].
      rewrite Hl, elem_of_app, elem_of_cons. tauto. }
    assert (CalendarService.events
              (calendar (CancellationVerifier.mark_call_record session
                 (CancellationVerifier.send_cancellation e
                    (CancellationVerifier.delete_event e (l1 ++ l2) w)))) = l1 ++ l2) as Hev.
    { unfold CancellationVerifier.send_cancellation. cbn.
      by destruct (gmail_api_up w). }
    cbn [fst snd]. rewrite Hev. repeat split; try done.
    + intros _ Heq. apply (f_equal length) in Heq. rewrite Hl in Heq.
      rewrite !length_app in Heq. simpl in Heq. lia.
    + intros _. exists l1, e, l2.
      split; [done|]. split; [by apply matches_located|]. done.
  - pose proof (proj1 (take_first_None _ _) Htf) as Hnone.
    assert (¬ ∃ e0, e0 ∈ CalendarService.events (calendar w)
                    ∧ CancellationVerifier.located rq e0) as Hnot.
    { intros (e0 & Hin & Hloc). apply matches_located in Hloc.
      rewrite (Hnone e0 Hin) in Hloc. done. }
    cbn [fst snd]. repeat split; try done.
    + by rewrite Htf.
Qed.

(** The tolerance boundary: 10 and 15 minutes off cancel, 16 and 20 do not. *)
Example cancel_tolerance :
  CancellationVerifier.cr_found (CancellationVerifier.cancel "s-1" (cancel_request 610) sample_world).1 = true
  ∧ CalendarService.events
      (calendar (CancellationVerifier.cancel "s-1" (cancel_request 610) sample_world).2) = []
  ∧ CancellationVerifier.cr_found (CancellationVerifier.cancel "s-1" (cancel_request 615) sample_world).1 = true
  ∧ CancellationVerifier.cr_found (CancellationVerifier.cancel "s-1" (cancel_request 616) sample_world).1 = false
  ∧ CancellationVerifier.cancel "s-1" (cancel_request 620) sample_world
    = ({| CancellationVerifier.cr_success := false;
          CancellationVerifier.cr_found := false |}, sample_world).
Proof. vm_compute. done. Qed.

(** ** The availability cache *)

(** X19: the cache is never written: every path that would store or
    serve an entry first evaluates [time.time()] on the time-of-day
    string. *)
Lemma availability_cache_unchanged fetch self date time :
  (AvailabilityCache.check_availability fetch self date time).2 = self.
Proof.
  unfold AvailabilityCache.check_availability.
  destruct (AvailabilityCache.cache self !! _) as [[cached_result timestamp]|]; simpl; [done|].
  destruct (fetch date time) as [result|e]; [|done].
  by destruct (truthy_bool (av_available result)).
Qed.

(** X2: an answer, when there is one, is the fresh fetch of that query,
    and it is negative. *)
Lemma availability_cache_answer fetch self date time r :
  (AvailabilityCache.check_availability fetch self date time).1 = Ok r →
  fetch date time = Ok r ∧ truthy_bool (av_available r) = false.
Proof.
  unfold AvailabilityCache.check_availability.
  destruct (AvailabilityCache.cache self !! _) as [[cached_result timestamp]|]; simpl; [done|].
  destruct (fetch date time) as [result|e]; [|done].
  destruct (truthy_bool (av_available result)) eqn:Hav; simpl; [done|].
  by intros [= <-].
Qed.

Lemma availability_cache_answer_witness :
  truthy_bool (av_available busy_answer) = false.
Proof.
  exact (proj2 (availability_cache_answer (λ _ _, Ok busy_answer)
                  (AvailabilityCache.init 300) "2025-03-10" "10:00 AM" busy_answer
                  eq_refl)).
Defined.

(** A stored entry, however fresh, is not served either. *)
Lemma availability_cache_hit_raises fetch self date time entry :
  AvailabilityCache.cache self
    !! ("availability_" +:+ date +:+ "_" +:+ time)%string = Some entry →
  AvailabilityCache.check_availability fetch self date time
  = (Raise (AttributeError "str" "time"), self).
Proof.
  intros H. unfold AvailabilityCache.check_availability. rewrite H.
  by destruct entry.
Qed.

(** C10 at its failing input: a first query for a free slot.  The fetch
    answers [available = True]; storing it needs [time.time()], which is
    looked up on the string ["10:00 AM"], so the call raises: the caller
    gets no answer and the cache stays empty. *)
Theorem availability_cache_positive_answer_raises :
  let fetch := λ _ _ : string, Ok free_answer in
  AvailabilityCache.check_availability fetch (AvailabilityCache.init 300)
    "2025-03-10" "10:00 AM"
  = (Raise (AttributeError "str" "time"), AvailabilityCache.init 300)
  ∧ AvailabilityCache.check_availability (λ _ _ : string, Ok busy_answer)
      (AvailabilityCache.init 300) "2025-03-10" "10:00 AM"
    = (Ok busy_answer, AvailabilityCache.init 300).
Proof. split; reflexivity. Qed.

(** X17: the patient cache reads the clock of the [time] module, and
    there an entry stored is served until it is [ttl] old. *)
Lemma patient_cache_serves_stored fetch now later self phone_number d :
  PatientDataCache.cache self !! ("patient_" +:+ phone_number)%string = None →
  fetch phone_number = Some d →
  later - now < PatientDataCache.ttl self →
  let stored := PatientDataCache.get_patient fetch now self phone_number in
  stored.1 = Some d
  ∧ PatientDataCache.get_patient (λ _, None) later stored.2 phone_number
    = (Some d, stored.2).
Proof.
  intros Hmiss Hfetch Hfresh. unfold PatientDataCache.get_patient.
  rewrite Hmiss. simpl. rewrite Hfetch. simpl. split; [done|].
  rewrite lookup_insert_eq.
  by rewrite (proj2 (Z.ltb_lt _ _) Hfresh).
Qed.

(** * Further properties of the session code *)

(** ** Customer detection, again *)

(** X4: a lookup can be repeated.  After a first detection for a phone,
    the next one gives the same record, as [existing] if there was one
    and as [new] if there was none, and changes nothing; once a record is
    cached, the durable store is not asked again, whatever it holds by
    then. *)
Lemma detect_customer_type_again (phone : Phone) (g : Globals) :
  let first := detect_customer_type phone g in
  detect_customer_type phone first.2
  = (match first.1.2 with Some _ => "existing" | None => "new" end%string,
     first.1.2, first.2)
  ∧ ∀ info sheets,
      first.1.2 = Some info →
      detect_customer_type phone
        {| active_sessions := active_sessions first.2;
           session_call_records := session_call_records first.2;
           patient_database := patient_database first.2;
           global_sheets_service := sheets;
           saved_call_records := saved_call_records first.2 |}
      = (("existing"%string, Some info),
         {| active_sessions := active_sessions first.2;
            session_call_records := session_call_records first.2;
            patient_database := patient_database first.2;
            global_sheets_service := sheets;
            saved_call_records := saved_call_records first.2 |}).
Proof.
  intros first. subst first.
  generalize (detect_customer_type_sound phone g).
  destruct (detect_customer_type phone g) as [[tag o] g1]. simpl.
  intros H. inversion H as [info Hc|sheets rec Hc Hs Hr|Hc Hs]; subst; simpl.
  - split; [apply identify_spec_functional; by constructor|].
    intros info' sheets' [= <-]. unfold detect_customer_type. simpl. by rewrite Hc.
  - split.
    + unfold detect_customer_type. simpl. by rewrite lookup_insert_eq.
    + intros info' sheets' [= <-]. unfold detect_customer_type. simpl.
      by rewrite lookup_insert_eq.
  - split; [apply identify_spec_functional; by constructor|].
    by intros info' sheets' [=].
Qed.

Lemma detect_customer_type_keeps (phone : Phone) (g : Globals) :
  let out := detect_customer_type phone g in
  (∀ other info, patient_database g !! other = Some info →
                 patient_database out.2 !! other = Some info)
  ∧ (∀ other, other ≠ phone →
              patient_database out.2 !! other = patient_database g !! other)
  ∧ active_sessions out.2 = active_sessions g
  ∧ session_call_records out.2 = session_call_records g
  ∧ global_sheets_service out.2 = global_sheets_service g
  ∧ saved_call_records out.2 = saved_call_records g.
Proof.
  unfold detect_customer_type.
  destruct (patient_database g !! phone) as [info|] eqn:Hc; simpl; [done|].
  destruct (global_sheets_service g) as [sheets|] eqn:Hs; simpl; [|done].
  destruct (get_patient_by_phone sheets phone) as [rec|] eqn:Hr; simpl; [|done].
  repeat split; try done.
  - intros other info Ho. rewrite lookup_insert_ne; [done|]. congruence.
  - intros other Hne. by rewrite lookup_insert_ne.
Qed.

(** X5: a detection never evicts or rewrites what session memory holds,
    for any phone, and touches nothing but session memory. *)
Lemma detect_customer_type_frame (phone : Phone) (g : Globals) :
  let out := detect_customer_type phone g in
  (∀ other info, patient_database g !! other = Some info →
                 patient_database out.2 !! other = Some info)
  ∧ (∀ other, other ≠ phone →
              patient_database out.2 !! other = patient_database g !! other)
  ∧ active_sessions out.2 = active_sessions g
  ∧ session_call_records out.2 = session_call_records g
  ∧ global_sheets_service out.2 = global_sheets_service g
  ∧ saved_call_records out.2 = saved_call_records g.
Proof. apply detect_customer_type_keeps. Qed.

(** ** Call record updates, again *)

Lemma update_call_record_known sid function_name arguments g r :
  session_call_records g !! sid = Some r →
  function_name = "book_appointment"%string
  ∨ function_name = "send_appointment_email"%string →
  update_call_record_from_function sid function_name arguments g
  = set_session_call_records
      (<[sid :=
           update_record_fields (arguments !! "patient_name"%string)
             (arguments !! "email"%string) (arguments !! "phone"%string)
             (detect_customer_type (arguments !! "phone"%string) g).1
             (arguments !! "department"%string)
             (arguments !! "doctor_name"%string) r]>
         (session_call_records (detect_customer_type (arguments !! "phone"%string) g).2))
      (detect_customer_type (arguments !! "phone"%string) g).2.
Proof.
  intros Hr Hfn. unfold update_call_record_from_function. rewrite Hr.
  rewrite bool_decide_eq_true_2.
  - by destruct (detect_customer_type _ g) as [ct g1].
  - destruct Hfn as [-> | ->]; [left|right; left].
Qed.

Lemma update_call_record_other_function sid function_name arguments g :
  function_name ≠ "book_appointment"%string →
  function_name ≠ "send_appointment_email"%string →
  update_call_record_from_function sid function_name arguments g = g.
Proof.
  intros H1 H2. unfold update_call_record_from_function.
  destruct (session_call_records g !! sid); [|done].
  rewrite bool_decide_eq_false_2; [done|].
  rewrite !elem_of_cons, elem_of_nil. tauto.
Qed.

Lemma update_call_record_cases sid function_name arguments g :
  update_call_record_from_function sid function_name arguments g = g
  ∨ ∃ r, session_call_records g !! sid = Some r
         ∧ (function_name = "book_appointment"%string
            ∨ function_name = "send_appointment_email"%string).
Proof.
  destruct (session_call_records g !! sid) as [r|] eqn:Hr.
  - destruct (decide (function_name = "book_appointment"%string)) as [->|H1];
      [right; eauto|].
    destruct (decide (function_name = "send_appointment_email"%string)) as [->|H2];
      [right; eauto|].
    left. by apply update_call_record_other_function.
  - left. unfold update_call_record_from_function. by rewrite Hr.
Qed.

(** X6: an update neither opens nor closes a session and persists
    nothing.  The sessions that have a call record are the same before and
    after, every other session's record is untouched, the record of the
    session keeps its identity, clock and status fields, and nothing in
    session memory is lost. *)
Lemma update_call_record_frame
    (sid function_name : string) (arguments : gmap string string) (g : Globals) :
  let g' := update_call_record_from_function sid function_name arguments g in
  dom (session_call_records g') = dom (session_call_records g)
  ∧ (∀ other, other ≠ sid →
              session_call_records g' !! other = session_call_records g !! other)
  ∧ (∀ r, session_call_records g !! sid = Some r →
          ∃ r', session_call_records g' !! sid = Some r'
                ∧ call_id r' = call_id r ∧ session_id r' = session_id r
                ∧ timestamp r' = timestamp r ∧ status r' = status r
                ∧ start_time r' = start_time r
                ∧ duration_seconds r' = duration_seconds r
                ∧ language r' = language r)
  ∧ active_sessions g' = active_sessions g
  ∧ saved_call_records g' = saved_call_records g
  ∧ global_sheets_service g' = global_sheets_service g
  ∧ (∀ p info, patient_database g !! p = Some info →
               patient_database g' !! p = Some info).
Proof.
  intros g'. subst g'.
  destruct (update_call_record_cases sid function_name arguments g)
    as [->|(r & Hr & Hfn)].
  { repeat split; try done. intros r Hr. exists r. done. }
  rewrite (update_call_record_known sid function_name arguments g r Hr Hfn).
  destruct (detect_customer_type_keeps (arguments !! "phone"%string) g)
    as (Hkeep & _ & Ha & Hs & Hg & Hsv).
  simpl. rewrite Hs, Ha, Hsv, Hg. repeat split; try done.
  - apply dom_insert_lookup_L. by rewrite Hr.
  - intros other Hne. by rewrite lookup_insert_ne.
  - intros r0 Hr0. assert (r0 = r) as -> by congruence.
    eexists. split; [apply lookup_insert_eq|]. done.
Qed.

(** X7: what an update does to the contact fields of a session's record.
    A non-empty argument overwrites the recorded value (last write wins);
    a missing or empty argument leaves it as it was, so nothing recorded
    is ever erased; the call type becomes [appointment_booking]. *)
Lemma update_call_record_merge
    (sid function_name : string) (arguments : gmap string string)
    (g : Globals) (r : CallRecord) :
  session_call_records g !! sid = Some r →
  function_name = "book_appointment"%string
  ∨ function_name = "send_appointment_email"%string →
  ∃ r',
    session_call_records
      (update_call_record_from_function sid function_name arguments g) !! sid = Some r'
    ∧ call_type r' = "appointment_booking"%string
    ∧ (∀ v, arguments !! "patient_name"%string = Some v → v ≠ ""%string →
            customer_name r' = v)
    ∧ (arguments !! "patient_name"%string = None
       ∨ arguments !! "patient_name"%string = Some ""%string →
       customer_name r' = customer_name r)
    ∧ (∀ v, arguments !! "email"%string = Some v → v ≠ ""%string →
            customer_email r' = v)
    ∧ (arguments !! "email"%string = None
       ∨ arguments !! "email"%string = Some ""%string →
       customer_email r' = customer_email r)
    ∧ (∀ v, arguments !! "phone"%string = Some v → v ≠ ""%string →
            caller_phone r' = Some v)
    ∧ (arguments !! "phone"%string = None
       ∨ arguments !! "phone"%string = Some ""%string →
       caller_phone r' = caller_phone r)
    ∧ (∀ v, arguments !! "department"%string = Some v → v ≠ ""%string →
            department_enquired r' = Some v)
    ∧ (arguments !! "department"%string = None
       ∨ arguments !! "department"%string = Some ""%string →
       department_enquired r' = department_enquired r)
    ∧ (∀ v, arguments !! "doctor_name"%string = Some v → v ≠ ""%string →
            doctor_enquired r' = Some v)
    ∧ (arguments !! "doctor_name"%string = None
       ∨ arguments !! "doctor_name"%string = Some ""%string →
       doctor_enquired r' = doctor_enquired r).
Proof.
  intros Hr Hfn.
  rewrite (update_call_record_known sid function_name arguments g r Hr Hfn).
  eexists. split; [apply lookup_insert_eq|]. simpl.
  assert (∀ v : string, v ≠ ""%string → String.eqb v "" = false) as Hne.
  { intros v Hv. by apply String.eqb_neq. }
  unfold or_str, or_opt_str, truthy_str.
  repeat split.
  all: try (intros v -> Hv; rewrite (Hne v Hv); done).
  all: intros [-> | ->]; done.
Qed.

Lemma update_call_record_merge_witness :
  ∃ r',
    session_call_records
      (update_call_record_from_function "s-1" "book_appointment"
         booking_arguments sample_globals) !! "s-1"%string = Some r'
    ∧ customer_name r' = "John Smith"%string
    ∧ department_enquired r' = Some "Cardiology"%string.
Proof.
  destruct (update_call_record_merge "s-1" "book_appointment" booking_arguments
              sample_globals sample_record eq_refl (or_introl eq_refl))
    as (r' & Hr' & _ & Hname & _ & _ & _ & _ & _ & Hdep & _).
  exists r'. split; [exact Hr'|]. split.
  - apply Hname; [reflexivity|discriminate].
  - apply Hdep; [reflexivity|discriminate].
Defined.

(** X8: two updates in a row for a patient known only to the durable
    store.  The first tags the call [returning] and pulls the record into
    session memory; the second one, for the same phone, tags the same call
    [existing]. *)
Lemma update_call_record_returning_then_existing
    (sid : string) (arguments arguments' : gmap string string)
    (g : Globals) (r : CallRecord) (sheets : GoogleSheetsService)
    (patient_record : PatientRecord) :
  session_call_records g !! sid = Some r →
  patient_database g !! (arguments !! "phone"%string) = None →
  global_sheets_service g = Some sheets →
  get_patient_by_phone sheets (arguments !! "phone"%string) = Some patient_record →
  arguments' !! "phone"%string = arguments !! "phone"%string →
  let g1 := update_call_record_from_function sid "book_appointment" arguments g in
  let g2 := update_call_record_from_function sid "send_appointment_email" arguments' g1 in
  (customer_type <$> session_call_records g1 !! sid)
  = Some (Some ("returning"%string, Some (convert_to_dict patient_record)))
  ∧ (customer_type <$> session_call_records g2 !! sid)
    = Some (Some ("existing"%string, Some (convert_to_dict patient_record)))
  ∧ patient_database g2 = patient_database g1.
Proof.
  intros Hr Hc Hs Hp Hph g1 g2. subst g1 g2.
  rewrite (update_call_record_known sid _ arguments g r Hr (or_introl eq_refl)).
  assert (detect_customer_type (arguments !! "phone"%string) g
          = (("returning"%string, Some (convert_to_dict patient_record)),
             set_patient_database
               (<[arguments !! "phone"%string := convert_to_dict patient_record]>
                  (patient_database g)) g)) as Hd.
  { unfold detect_customer_type. by rewrite Hc, Hs, Hp. }
  rewrite Hd. cbn [fst snd].
  set (g1 := set_session_call_records _ _).
  assert (session_call_records g1 !! sid
          = Some (update_record_fields (arguments !! "patient_name"%string)
                    (arguments !! "email"%string) (arguments !! "phone"%string)
                    ("returning"%string, Some (convert_to_dict patient_record))
                    (arguments !! "department"%string)
                    (arguments !! "doctor_name"%string) r)) as Hr1.
  { subst g1. simpl. apply lookup_insert_eq. }
  assert (detect_customer_type (arguments' !! "phone"%string) g1
          = (("existing"%string, Some (convert_to_dict patient_record)), g1)) as Hd1.
  { rewrite Hph. unfold detect_customer_type. subst g1. simpl.
    by rewrite lookup_insert_eq. }
  rewrite (update_call_record_known sid _ arguments' g1 _ Hr1 (or_intror eq_refl)).
  rewrite Hd1, Hr1. cbn [fst snd]. simpl. rewrite lookup_insert_eq. done.
Qed.

Lemma update_call_record_returning_then_existing_witness :
  (customer_type
     <$> session_call_records
           (update_call_record_from_function "s-1" "book_appointment"
              booking_arguments sample_globals) !! "s-1"%string)
  = Some (Some ("returning"%string, Some (convert_to_dict sample_patient))).
Proof.
  exact (proj1 (update_call_record_returning_then_existing "s-1" booking_arguments
                  booking_arguments sample_globals sample_record sample_sheets
                  sample_patient eq_refl eq_refl eq_refl eq_refl eq_refl)).
Defined.

(** ** Sessions, from creation to cleanup *)

(** X9: a finalised call record is out of reach.  After a cleanup that
    returns, the session has no call record and an update for it changes
    nothing; a cleanup that raises leaves the state as it was. *)
Lemma cleanup_session_then_update
    (now : Z) (sid function_name : string) (arguments : gmap string string)
    (g : Globals) :
  let out := SessionManager.cleanup_session now sid g in
  match out.1 with
  | Ok _ =>
      session_call_records out.2 !! sid = None
      ∧ active_sessions out.2 !! sid = None
      ∧ update_call_record_from_function sid function_name arguments out.2 = out.2
  | Raise _ => out.2 = g
  end.
Proof.
  unfold SessionManager.cleanup_session.
  destruct (session_call_records g !! sid) as [r|] eqn:Hr.
  - destruct (start_time r) as [|st]; simpl; [done|].
    assert (∀ m : gmap string CallRecord, delete sid m !! sid = None) as Hdel
      by (intros m; apply lookup_delete_eq).
    split; [apply Hdel|]. split; [apply lookup_delete_eq|].
    unfold update_call_record_from_function. simpl. by rewrite Hdel.
  - simpl. split; [done|]. split; [apply lookup_delete_eq|].
    unfold update_call_record_from_function. simpl. by rewrite Hr.
Qed.

(** X10: a cleanup touches one session only.  The call records and the
    active entries of all other sessions, session memory and the sheets
    service are as before; at most one record is persisted, and it is the
    session's own record with nothing but its duration changed: every
    other field is as it was, and the duration is set, to the whole
    seconds from the start time to now, exactly when the start time is not
    [None]; a session without a call record is still removed from the
    active sessions, with nothing persisted. *)
Lemma cleanup_session_frame (now : Z) (sid : string) (g : Globals) :
  let out := SessionManager.cleanup_session now sid g in
  (∀ other, other ≠ sid →
            session_call_records out.2 !! other = session_call_records g !! other)
  ∧ (∀ other, other ≠ sid →
              active_sessions out.2 !! other = active_sessions g !! other)
  ∧ patient_database out.2 = patient_database g
  ∧ global_sheets_service out.2 = global_sheets_service g
  ∧ (saved_call_records out.2 = saved_call_records g
     ∨ ∃ r r', session_call_records g !! sid = Some r
               ∧ saved_call_records out.2 = saved_call_records g ++ [r']
               ∧ call_id r' = call_id r ∧ session_id r' = session_id r
               ∧ customer_name r' = customer_name r
               ∧ customer_email r' = customer_email r
               ∧ caller_phone r' = caller_phone r
               ∧ call_type r' = call_type r ∧ status r' = status r
               ∧ customer_type r' = customer_type r
               ∧ timestamp r' = timestamp r ∧ language r' = language r
               ∧ start_time r' = start_time r
               ∧ department_enquired r' = department_enquired r
               ∧ doctor_enquired r' = doctor_enquired r
               ∧ ((start_time r = Assigned None ∧ r' = r)
                  ∨ ∃ t, start_time r = Assigned (Some t)
                         ∧ duration_seconds r'
                           = Some (SessionManager.int_total_seconds (now - t))
                         ∧ r' = SessionManager.set_duration_seconds
                                  (SessionManager.int_total_seconds (now - t)) r))
  ∧ (session_call_records g !! sid = None →
     out.1 = Ok ()
     ∧ active_sessions out.2 !! sid = None
     ∧ saved_call_records out.2 = saved_call_records g).
Proof.
  unfold SessionManager.cleanup_session.
  destruct (session_call_records g !! sid) as [r|] eqn:Hr.
  - destruct (start_time r) as [|st] eqn:Hst; simpl.
    { repeat split; try done. by left. }
    repeat split; try done.
    + intros other Hne. by rewrite lookup_delete_ne.
    + intros other Hne. by rewrite lookup_delete_ne.
    + right. exists r. eexists. split; [done|]. split; [done|].
      destruct st as [t|]; simpl; repeat split; try done.
      * right. exists t. by rewrite Hst.
      * by left.
  - simpl. repeat split; try done.
    + intros other Hne. by rewrite lookup_delete_ne.
    + by left.
    + apply lookup_delete_eq.
Qed.

(** X11: [create_session] registers the session under the id it returns,
    as active and with a fresh call record in progress, and leaves every
    other session, session memory and the persisted records alone.  It
    has no admission test: a fresh id always makes one session more,
    however many there are; an id already in use has its entries
    replaced. *)
Lemma create_session_registers
    (session_uuid call_uuid : string) (now : Z) (voice_id : string) (g : Globals) :
  let out := SessionManager.create_session session_uuid call_uuid now voice_id g in
  out.1 = session_uuid
  ∧ (sd_status <$> active_sessions out.2 !! out.1) = Some "active"%string
  ∧ (sd_voice_id <$> active_sessions out.2 !! out.1) = Some voice_id
  ∧ session_call_records out.2 !! out.1
    = Some (CallRecord_init call_uuid now session_uuid None)
  ∧ (∀ other, other ≠ session_uuid →
              active_sessions out.2 !! other = active_sessions g !! other
              ∧ session_call_records out.2 !! other = session_call_records g !! other)
  ∧ patient_database out.2 = patient_database g
  ∧ saved_call_records out.2 = saved_call_records g
  ∧ (active_sessions g !! session_uuid = None →
     size (active_sessions out.2) = S (size (active_sessions g)))
  ∧ (is_Some (active_sessions g !! session_uuid) →
     size (active_sessions out.2) = size (active_sessions g)).
Proof.
  unfold SessionManager.create_session. simpl.
  rewrite !lookup_insert_eq. repeat split; try done.
  - by rewrite lookup_insert_ne.
  - by rewrite lookup_insert_ne.
  - intros Hfresh. by apply map_size_insert_None.
  - intros Hused. by apply map_size_insert_Some.
Qed.

(** A session just created can be updated and then tells what the
    booking call said; the update cannot be followed by a cleanup, which
    raises for want of a start time, so the record is never persisted by
    these three calls. *)
Lemma create_update_cleanup
    (session_uuid call_uuid : string) (now later : Z) (voice_id : string)
    (arguments : gmap string string) (g : Globals) :
  let created := SessionManager.create_session session_uuid call_uuid now voice_id g in
  let updated := update_call_record_from_function created.1 "book_appointment"
                   arguments created.2 in
  (call_type <$> session_call_records updated !! created.1)
  = Some "appointment_booking"%string
  ∧ (customer_name <$> session_call_records updated !! created.1)
    = Some (or_str (arguments !! "patient_name"%string) "")
  ∧ SessionManager.cleanup_session later created.1 updated
    = (Raise (AttributeError "CallRecord" "start_time"), updated)
  ∧ saved_call_records updated = saved_call_records g.
Proof.
  intros created updated. subst created updated.
  set (c := SessionManager.create_session _ _ _ _ _).
  assert (session_call_records c.2 !! c.1
          = Some (CallRecord_init call_uuid now session_uuid None)) as Hc.
  { subst c. unfold SessionManager.create_session. simpl. apply lookup_insert_eq. }
  rewrite (update_call_record_known c.1 _ arguments c.2 _ Hc (or_introl eq_refl)).
  destruct (detect_customer_type_keeps (arguments !! "phone"%string) c.2)
    as (_ & _ & _ & _ & _ & Hsaved).
  cbn [session_call_records set_session_call_records saved_call_records].
  rewrite lookup_insert_eq. repeat split; try done.
  - eapply cleanup_session_unset_start_time; [simpl; apply lookup_insert_eq|done].
Qed.

(** ** The record's own update method *)

(** X12: [update_from_function_call] is idempotent, acts only on the two
    appointment functions, and never touches the identity, phone, language,
    status, clock or customer-type fields of the record. *)
Lemma update_from_function_call_idempotent
    (function_name : string) (arguments : gmap string string) (r : CallRecord) :
  let r' := update_from_function_call function_name arguments r in
  update_from_function_call function_name arguments r' = r'
  ∧ call_id r' = call_id r ∧ session_id r' = session_id r
  ∧ timestamp r' = timestamp r ∧ caller_phone r' = caller_phone r
  ∧ language r' = language r ∧ status r' = status r
  ∧ start_time r' = start_time r ∧ duration_seconds r' = duration_seconds r
  ∧ customer_type r' = customer_type r
  ∧ (function_name ≠ "book_appointment"%string →
     function_name ≠ "check_appointment_availability"%string → r' = r).
Proof.
  unfold update_from_function_call.
  destruct (bool_decide (function_name ∈ _)) eqn:Hfn; simpl.
  - rewrite ?Hfn. repeat split; try done.
    + destruct (arguments !! "patient_name"%string),
               (arguments !! "email"%string),
               (arguments !! "department"%string),
               (arguments !! "doctor_name"%string); done.
    + intros H1 H2. apply bool_decide_eq_true in Hfn.
      rewrite !elem_of_cons, elem_of_nil in Hfn. tauto.
  - rewrite ?Hfn. done.
Qed.

(** X13: the two updaters differ on what is missing or empty.  With no
    [department] among the arguments the method resets the department
    enquired to the empty string, and an empty [patient_name] erases the
    recorded name; [update_call_record_from_function] keeps both as
    recorded. *)
Lemma updaters_differ_on_missing
    (sid : string) (arguments : gmap string string) (g : Globals) (r : CallRecord) :
  session_call_records g !! sid = Some r →
  arguments !! "department"%string = None →
  arguments !! "patient_name"%string = Some ""%string →
  let by_method := update_from_function_call "book_appointment" arguments r in
  let by_function := update_call_record_from_function sid "book_appointment" arguments g in
  department_enquired by_method = Some ""%string
  ∧ customer_name by_method = ""%string
  ∧ (department_enquired <$> session_call_records by_function !! sid)
    = Some (department_enquired r)
  ∧ (customer_name <$> session_call_records by_function !! sid)
    = Some (customer_name r).
Proof.
  intros Hr Hd Hn by_method by_function. subst by_method by_function.
  rewrite (update_call_record_known sid _ arguments g r Hr (or_introl eq_refl)).
  unfold update_from_function_call. simpl.
  rewrite lookup_insert_eq, Hd, Hn. done.
Qed.

Lemma updaters_differ_on_missing_witness :
  department_enquired
    (update_from_function_call "book_appointment" blank_name_arguments recorded_call)
  = Some ""%string
  ∧ (department_enquired
       <$> session_call_records
             (update_call_record_from_function "s-3" "book_appointment"
                blank_name_arguments recorded_globals) !! "s-3"%string)
    = Some (Some "Cardiology"%string).
Proof.
  destruct (updaters_differ_on_missing "s-3" blank_name_arguments recorded_globals
              recorded_call eq_refl eq_refl eq_refl) as (H1 & _ & H2 & _).
  split; [exact H1|exact H2].
Defined.

(** ** The availability handler *)

(** X14: what the availability handler answers.  It asks the calendar
    once, for the requested date and time and for 30 minutes unless a
    duration is given, and if the check returns it calls the callback once:
    always with [success = True], with [available = True] exactly when
    the check's answer has a true [available], and otherwise, also when
    the answer has no [available] key, with [available = False] and the
    alternatives of the answer, none if it has none.  If the check raises,
    the handler raises with it and the callback is not called. *)
Lemma handle_check_availability_reply
    (svc : availability_service) (arguments : AvailabilityArguments)
    (result_callback : AvailabilityReply → M unit) (w : World) :
  let checked := emit (CheckAvailability (ava_appointment_date arguments)
                         (ava_appointment_time arguments)) w in
  match as_check_availability svc (calendar w)
          (ava_appointment_date arguments) (ava_appointment_time arguments)
          (default 30 (ava_duration_minutes arguments)) with
  | Ok d =>
      ∃ reply,
        handle_check_appointment_availability svc arguments result_callback w
        = result_callback reply checked
        ∧ ar_success reply = true
        ∧ (ar_available reply = true ↔ av_available d = Some true)
        ∧ (ar_available reply = true →
           ar_alternatives reply = None ∧ ar_requested_slot reply = Some None)
        ∧ (ar_available reply = false →
           ar_alternatives reply = Some (default [] (av_alternatives d))
           ∧ ar_requested_slot reply = None)
  | Raise e =>
      handle_check_appointment_availability svc arguments result_callback w
      = (Raise e, checked)
  end.
Proof.
  unfold handle_check_appointment_availability, m_bind, call_check_availability_for.
  destruct (as_check_availability svc _ _ _ _) as [d|e]; simpl; [|done].
  destruct (av_available d) as [[]|]; simpl; eexists; (split; [reflexivity|]); simpl;
    repeat split; try done.
Qed.

(** X15: the two handlers read the same indeterminate answer in opposite
    ways.  When the availability check returns a dictionary without an
    [available] key, the availability handler reports the slot as not
    available, while the booking handler goes on to commit. *)
Lemma handlers_disagree_on_indeterminate
    (check_svc : availability_service) (book_svc : calendar_service)
    (date time : Z) (duration : option Z) (booking : BookingArguments)
    (result_callback : AvailabilityReply → M unit) (w : World)
    (d : AvailabilityDict) :
  arg_appointment_date booking = date →
  arg_appointment_time booking = time →
  as_check_availability check_svc (calendar w) date time (default 30 duration) = Ok d →
  cs_check_availability book_svc (calendar w) date time = Ok d →
  av_available d = None →
  (∃ reply,
     handle_check_appointment_availability check_svc
       {| ava_appointment_date := date; ava_appointment_time := time;
          ava_duration_minutes := duration |} result_callback w
     = result_callback reply (emit (CheckAvailability date time) w)
     ∧ ar_available reply = false)
  ∧ ∃ w', handle_book_appointment book_svc booking w = (Ok (), w')
          ∧ SendConfirmationEmail (extract_patient_data booking) ∈ trace w'
          ∧ CreateCalendarEvent (extract_patient_data booking) ∈ trace w'
          ∧ (rp_success <$> last (callbacks w')) = Some true.
Proof.
  intros Hdate Htime Hcheck Hbook Hav. split.
  - unfold handle_check_appointment_availability, m_bind, call_check_availability_for.
    simpl. rewrite Hcheck, Hav. simpl. eexists. split; reflexivity.
  - subst date time. by eapply book_indeterminate_check_commits.
Qed.

Lemma handlers_disagree_on_indeterminate_witness :
  (∃ reply,
     handle_check_appointment_availability guarded_availability_service
       {| ava_appointment_date := 20157; ava_appointment_time := 600;
          ava_duration_minutes := None |} (λ _ w, (Ok (), w)) calendar_down_world
     = (Ok (), emit (CheckAvailability 20157 600) calendar_down_world)
     ∧ ar_available reply = false)
  ∧ ∃ w', handle_book_appointment guarded_calendar_service (booking_at 600)
            calendar_down_world = (Ok (), w')
          ∧ (rp_success <$> last (callbacks w')) = Some true.
Proof.
  destruct (handlers_disagree_on_indeterminate guarded_availability_service
              guarded_calendar_service 20157 600 None (booking_at 600)
              (λ _ w, (Ok (), w)) calendar_down_world failed_answer
              eq_refl eq_refl eq_refl eq_refl eq_refl)
    as [(reply & Hc & Ha) (w' & Hb & _ & _ & Hs)].
  split; [exists reply; split; [exact Hc|exact Ha]|].
  exists w'. split; [exact Hb|exact Hs].
Defined.

(** ** The Patients sheet *)

(** X16: [save_patient_data] appends and never merges.  When the request
    goes through, the sheet is the old rows followed by one new row of as
    many cells as the range has columns, starting with the phone, name and
    e-mail; when it fails the result says so and the sheet is unchanged.
    Saving a patient who is already in the sheet adds a second row with
    the same phone. *)
Lemma save_patient_data_appends
    (created updated created' updated' : string)
    (patient_record : PatientRecord) (self : PatientSheet.t) :
  let out := PatientSheet.save_patient_data created updated patient_record self in
  let again := PatientSheet.save_patient_data created' updated' patient_record out.2 in
  PatientSheet.api_up out.2 = PatientSheet.api_up self
  ∧ if PatientSheet.api_up self
    then PatientSheet.sv_success out.1 = Some true
         ∧ (∃ row, PatientSheet.rows out.2 = PatientSheet.rows self ++ [row]
                   ∧ length row = PatientSheet.range_columns
                   ∧ take 3 row = [pr_phone patient_record; pr_name patient_record;
                                   pr_email patient_record]
                   ∧ drop 9 row = [created; updated])
         ∧ (∃ row row', PatientSheet.rows again.2
                        = PatientSheet.rows self ++ [row; row']
                        ∧ row !! 0%nat = Some (pr_phone patient_record)
                        ∧ row' !! 0%nat = Some (pr_phone patient_record))
    else PatientSheet.sv_success out.1 = Some false
         ∧ out.2 = self
         ∧ again.2 = self.
Proof.
  unfold PatientSheet.save_patient_data.
  destruct (PatientSheet.api_up self) eqn:Hup; simpl.
  - rewrite ?Hup. split; [done|]. split; [done|]. split.
    + eexists. split; [reflexivity|]. done.
    + eexists _, _. rewrite <- app_assoc. split; [reflexivity|]. done.
  - rewrite ?Hup. simpl. by rewrite ?Hup.
Qed.

(** ** The patient cache *)

(** A fresh entry of the patient cache is served as it is: the
    sheets are not asked, and the cache does not change. *)
Lemma patient_cache_fresh_hit
    (fetch : string → option PatientRecord) (now : Z) (self : PatientDataCache.t)
    (phone_number : string) (cached_data : PatientRecord) (stored_at : Z) :
  PatientDataCache.cache self !! ("patient_" +:+ phone_number)%string
  = Some (cached_data, stored_at) →
  now - stored_at < PatientDataCache.ttl self →
  PatientDataCache.get_patient fetch now self phone_number = (Some cached_data, self).
Proof.
  intros Hhit Hfresh. unfold PatientDataCache.get_patient. rewrite Hhit.
  by rewrite (proj2 (Z.ltb_lt _ _) Hfresh).
Qed.


Lemma patient_cache_fresh_hit_witness :
  PatientDataCache.get_patient (λ _, None) 4599 sample_patient_cache "+91-9876543210"
  = (Some (sample_patient), sample_patient_cache).
Proof.
  apply (patient_cache_fresh_hit (λ _, None) 4599 sample_patient_cache
           "+91-9876543210" (sample_patient) 1000).
  - reflexivity.
  - reflexivity.
Defined.


Lemma patient_cache_serves_stored_witness :
  (PatientDataCache.get_patient (λ _, Some (sample_patient)) 1000
     {| PatientDataCache.cache := ∅; PatientDataCache.ttl := 3600 |}
     "+91-9876543210").1
  = Some (sample_patient).
Proof.
  exact (proj1 (patient_cache_serves_stored
                  (λ _, Some (sample_patient)) 1000 2000
                  {| PatientDataCache.cache := ∅; PatientDataCache.ttl := 3600 |}
                  "+91-9876543210" (sample_patient)
                  eq_refl eq_refl eq_refl)).
Defined.

(** ** The connection pool *)

(** [get_connection], run without interruption, is its test followed by
    the piece the test leads to. *)
Lemma get_connection_pieces
    (create_new_connection : result DatabaseConnectionManager.Connection)
    (self : DatabaseConnectionManager.t) :
  DatabaseConnectionManager.get_connection create_new_connection self
  = match DatabaseConnectionManager.get_connection_test self with
    | DatabaseConnectionManager.AwaitCreateNewConnection =>
        DatabaseConnectionManager.get_connection_created create_new_connection self
    | DatabaseConnectionManager.AwaitPoolGet =>
        DatabaseConnectionManager.get_connection_pooled self
    end.
Proof.
  unfold DatabaseConnectionManager.get_connection,
    DatabaseConnectionManager.get_connection_test.
  by destruct (_ && _).
Qed.

(** X20: a call of [get_connection] that no other coroutine interleaves
    with keeps the count of connections within the limit and prefers an
    idle connection: the count never goes beyond the larger of its old
    value and [max_connections]; with a connection in the pool the oldest
    one is handed out and none is opened; a new one is opened only when
    the pool is empty and the limit not reached, and is counted only if
    the opening succeeds; with the pool empty at the limit the caller stays
    suspended and nothing changes.  Across coroutines the limit is not
    kept: the count is raised only after [await create_new_connection()],
    so a second caller that runs its test while the first one waits passes
    it on the same manager, and when both connections are there the count
    has gone up by two; with one place left it ends above
    [max_connections]. *)
Lemma get_connection_bounded
    (create_new_connection : result DatabaseConnectionManager.Connection)
    (self : DatabaseConnectionManager.t) :
  let out := DatabaseConnectionManager.get_connection create_new_connection self in
  DatabaseConnectionManager.active_connections out.2
  ≤ Z.max (DatabaseConnectionManager.active_connections self)
          (DatabaseConnectionManager.max_connections self)
  ∧ DatabaseConnectionManager.active_connections self
    ≤ DatabaseConnectionManager.active_connections out.2
  ∧ DatabaseConnectionManager.max_connections out.2
    = DatabaseConnectionManager.max_connections self
  ∧ DatabaseConnectionManager.closed out.2 = DatabaseConnectionManager.closed self
  ∧ match DatabaseConnectionManager.connection_pool self with
    | oldest :: rest =>
        out.1 = DatabaseConnectionManager.Done oldest
        ∧ DatabaseConnectionManager.connection_pool out.2 = rest
        ∧ DatabaseConnectionManager.active_connections out.2
          = DatabaseConnectionManager.active_connections self
    | [] =>
        if DatabaseConnectionManager.active_connections self
           <? DatabaseConnectionManager.max_connections self
        then match create_new_connection with
             | Ok connection =>
                 out.1 = DatabaseConnectionManager.Done connection
                 ∧ DatabaseConnectionManager.active_connections out.2
                   = DatabaseConnectionManager.active_connections self + 1
             | Raise e =>
                 out = (DatabaseConnectionManager.Failed e, self)
             end
        else out = (DatabaseConnectionManager.Suspended, self)
    end
  ∧ out = match DatabaseConnectionManager.get_connection_test self with
          | DatabaseConnectionManager.AwaitCreateNewConnection =>
              DatabaseConnectionManager.get_connection_created
                create_new_connection self
          | DatabaseConnectionManager.AwaitPoolGet =>
              DatabaseConnectionManager.get_connection_pooled self
          end
  ∧ match DatabaseConnectionManager.get_connection_test self with
    | DatabaseConnectionManager.AwaitCreateNewConnection =>
        ∀ first second : DatabaseConnectionManager.Connection,
          let after_first :=
            DatabaseConnectionManager.get_connection_created (Ok first) self in
          let after_second :=
            DatabaseConnectionManager.get_connection_created (Ok second)
              after_first.2 in
          after_first.1 = DatabaseConnectionManager.Done first
          ∧ after_second.1 = DatabaseConnectionManager.Done second
          ∧ DatabaseConnectionManager.active_connections after_second.2
            = DatabaseConnectionManager.active_connections self + 2
          ∧ (DatabaseConnectionManager.max_connections self
             < DatabaseConnectionManager.active_connections after_second.2
             ↔ DatabaseConnectionManager.active_connections self
               = DatabaseConnectionManager.max_connections self - 1)
    | DatabaseConnectionManager.AwaitPoolGet =>
        DatabaseConnectionManager.connection_pool self ≠ []
        ∨ DatabaseConnectionManager.max_connections self
          ≤ DatabaseConnectionManager.active_connections self
    end.
Proof.
  intros out. subst out. rewrite get_connection_pieces.
  unfold DatabaseConnectionManager.get_connection_test,
    DatabaseConnectionManager.get_connection_created,
    DatabaseConnectionManager.get_connection_pooled.
  destruct (DatabaseConnectionManager.connection_pool self) as [|oldest rest] eqn:Hpool.
  - rewrite bool_decide_eq_true_2 by done. simpl.
    destruct (_ <? _) eqn:Hlt; simpl.
    + apply Z.ltb_lt in Hlt. destruct create_new_connection as [connection|e]; simpl;
        repeat split; try done; lia.
    + apply Z.ltb_ge in Hlt. repeat split; try done; try lia; by right.
  - rewrite bool_decide_eq_false_2 by done. simpl.
    repeat split; try done; try lia; by left.
Qed.

(** Two callers on a manager with one place left: both pass the test, the
    second one while the first waits for its connection, and the count
    ends at eleven of ten. *)
Lemma get_connection_bounded_witness :
  let after_first :=
    DatabaseConnectionManager.get_connection_created (Ok healthy_connection)
      nearly_full_manager in
  let after_second :=
    DatabaseConnectionManager.get_connection_created (Ok broken_connection)
      after_first.2 in
  DatabaseConnectionManager.get_connection_test nearly_full_manager
  = DatabaseConnectionManager.AwaitCreateNewConnection
  ∧ DatabaseConnectionManager.active_connections after_second.2 = 11
  ∧ DatabaseConnectionManager.max_connections after_second.2 = 10.
Proof.
  pose proof (get_connection_bounded (Ok healthy_connection) nearly_full_manager)
    as (_ & _ & _ & _ & _ & _ & H).
  change (DatabaseConnectionManager.get_connection_test nearly_full_manager)
    with DatabaseConnectionManager.AwaitCreateNewConnection in H.
  destruct (H healthy_connection broken_connection) as (_ & _ & Hcount & _).
  split; [reflexivity|]. split; [exact Hcount|reflexivity].
Defined.

(** X21: a healthy connection handed back to an empty pool is the one the
    next caller gets, with the manager as it was before; no connection is
    opened for that caller, even if opening one would succeed. *)
Lemma return_then_get
    (create_new_connection : result DatabaseConnectionManager.Connection)
    (connection : DatabaseConnectionManager.Connection)
    (self : DatabaseConnectionManager.t) :
  DatabaseConnectionManager.connection_pool self = [] →
  DatabaseConnectionManager.is_healthy connection = true →
  let returned := DatabaseConnectionManager.return_connection connection self in
  returned.1 = DatabaseConnectionManager.Done ()
  ∧ DatabaseConnectionManager.get_connection create_new_connection returned.2
    = (DatabaseConnectionManager.Done connection, self).
Proof.
  intros Hpool Hhealthy.
  unfold DatabaseConnectionManager.return_connection,
    DatabaseConnectionManager.pool_full.
  rewrite Hhealthy, Hpool. simpl.
  assert ((0 <? DatabaseConnectionManager.max_connections self)
          && (DatabaseConnectionManager.max_connections self <=? Z.of_nat 0) = false)
    as ->.
  { apply andb_false_iff. rewrite Z.ltb_ge, Z.leb_gt. lia. }
  simpl. split; [done|].
  unfold DatabaseConnectionManager.get_connection. simpl.
  destruct self; simpl in *. by subst.
Qed.


Lemma return_then_get_witness :
  DatabaseConnectionManager.get_connection (Ok broken_connection)
    (DatabaseConnectionManager.return_connection healthy_connection busy_manager).2
  = (DatabaseConnectionManager.Done healthy_connection, busy_manager).
Proof.
  exact (proj2 (return_then_get (Ok broken_connection) healthy_connection busy_manager
                  eq_refl eq_refl)).
Defined.


(** On a manager that counts no connection the count does go below zero. *)
Example return_unhealthy_below_zero :
  DatabaseConnectionManager.active_connections
    (DatabaseConnectionManager.return_connection broken_connection idle_manager).2 = -1.
Proof. reflexivity. Qed.

(** ** The error-recovery wrapper *)

(** X23: with a callback that does not raise, the wrapper never raises,
    whatever the handler does: a handler that returns is answered with
    [success = True], one that raises with [success = False] and the
    error type of its exception, and in both cases the world is the one
    the callback leaves after the handler. *)
Lemma safe_handler_never_raises
    (classify : exn → error_class) (str : exn → string)
    (original_handler : M unit) (result_callback : WrapperReply → M unit) (w : World) :
  (∀ reply w0, (result_callback reply w0).1 = Ok ()) →
  (safe_function_call_handler classify str original_handler result_callback w).1 = Ok ()
  ∧ match original_handler w with
    | (Ok _, w1) =>
        (safe_function_call_handler classify str original_handler result_callback w).2
        = (result_callback success_reply w1).2
    | (Raise e, w1) =>
        (safe_function_call_handler classify str original_handler result_callback w).2
        = (result_callback (error_reply (classify e) (str e)) w1).2
        ∧ wr_success (error_reply (classify e) (str e)) = false
        ∧ is_Some (wr_error_type (error_reply (classify e) (str e)))
    end.
Proof.
  intros Hcb. unfold safe_function_call_handler, m_bind.
  destruct (original_handler w) as [[[]|e] w1]; simpl.
  - pose proof (Hcb success_reply w1) as H. fold success_reply.
    destruct (result_callback success_reply w1) as [[[]|e'] w2]; simpl in *; done.
  - pose proof (Hcb (error_reply (classify e) (str e)) w1) as H.
    split; [exact H|]. split; [done|]. by destruct (classify e); simpl; eauto.
Qed.

Lemma safe_handler_never_raises_witness :
  (safe_function_call_handler (λ _, OtherException) (λ _, ""%string)
     (handle_book_appointment the_calendar_service (booking_at 600))
     quiet_callback calendar_down_world).1 = Ok ().
Proof.
  exact (proj1 (safe_handler_never_raises (λ _, OtherException) (λ _, ""%string)
                  (handle_book_appointment the_calendar_service (booking_at 600))
                  quiet_callback calendar_down_world (λ _ _, eq_refl))).
Defined.

Lemma safe_handler_after_return classify str
    (original_handler : M unit) (result_callback : WrapperReply → M unit) w w1 :
  original_handler w = (Ok (), w1) →
  safe_function_call_handler classify str original_handler result_callback w
  = match result_callback success_reply w1 with
    | (Ok _, w2) => (Ok (), w2)
    | (Raise e, w2) => result_callback (error_reply (classify e) (str e)) w2
    end.
Proof.
  intros H. unfold safe_function_call_handler, m_bind. rewrite H. done.
Qed.

(** X24: the booking handler under the wrapper answers twice.  The
    handler gives its own reply, and since it returns, the wrapper then
    calls the callback with [success = True], also when the handler's own
    reply was the refusal with [success = False]. *)
Lemma safe_handler_answers_booking_twice
    (classify : exn → error_class) (str : exn → string)
    (svc : calendar_service) (arguments : BookingArguments)
    (result_callback : WrapperReply → M unit) (w : World) (d : AvailabilityDict) :
  cs_check_availability svc (calendar w)
    (arg_appointment_date arguments) (arg_appointment_time arguments) = Ok d →
  ∃ reply w1,
    handle_book_appointment svc arguments w = (Ok (), w1)
    ∧ callbacks w1 = callbacks w ++ [reply]
    ∧ (rp_success reply = false ↔ av_available d = Some false)
    ∧ safe_function_call_handler classify str
        (handle_book_appointment svc arguments) result_callback w
      = match result_callback success_reply w1 with
        | (Ok _, w2) => (Ok (), w2)
        | (Raise e, w2) => result_callback (error_reply (classify e) (str e)) w2
        end.
Proof.
  intros Hcheck.
  destruct (decide (av_available d = Some false)) as [Hav|Hav].
  - exists (unavailable_reply d). eexists.
    split; [rewrite (book_refused svc arguments w d Hcheck Hav); reflexivity|].
    split; [done|]. split; [done|].
    apply safe_handler_after_return.
    by rewrite (book_refused svc arguments w d Hcheck Hav).
  - exists (confirmed_reply (Some (gmail_api_up w)) (Some (calendar_accepts_insert w))
              (extract_patient_data arguments)). eexists.
    split; [rewrite (book_committed svc arguments w d Hcheck Hav); reflexivity|].
    split; [by destruct (gmail_api_up w), (calendar_accepts_insert w)|].
    split; [done|].
    apply safe_handler_after_return.
    by rewrite (book_committed svc arguments w d Hcheck Hav).
Qed.

Lemma safe_handler_answers_booking_twice_witness :
  ∃ reply w1,
    handle_book_appointment the_calendar_service (booking_at 600) sample_world
    = (Ok (), w1)
    ∧ rp_success reply = false
    ∧ callbacks w1 = [reply]
    ∧ safe_function_call_handler (λ _, OtherException) (λ _, ""%string)
        (handle_book_appointment the_calendar_service (booking_at 600))
        quiet_callback sample_world = (Ok (), w1).
Proof.
  destruct (safe_handler_answers_booking_twice (λ _, OtherException) (λ _, ""%string)
              the_calendar_service (booking_at 600) quiet_callback sample_world
              busy_answer) as (reply & w1 & H & Hcb & Hs & Hw).
  - vm_compute. reflexivity.
  - exists reply, w1. split; [exact H|]. split; [by apply Hs|].
    split; [exact Hcb|exact Hw].
Defined.

(** ** Booking replies *)

(** X25: once the commit phase is entered the reply is [success = True]
    whatever the collaborators answer.  It carries the results of the
    e-mail and of the calendar write as flags; when the calendar refuses
    the event no event is added, the e-mail has gone out all the same if
    Gmail took it, and the call is logged. *)
Lemma book_reply_after_commit
    (svc : calendar_service) (arguments : BookingArguments) (w : World)
    (d : AvailabilityDict) :
  cs_check_availability svc (calendar w)
    (arg_appointment_date arguments) (arg_appointment_time arguments) = Ok d →
  av_available d ≠ Some false →
  let pd := extract_patient_data arguments in
  ∃ reply w',
    handle_book_appointment svc arguments w = (Ok (), w')
    ∧ callbacks w' = callbacks w ++ [reply]
    ∧ rp_success reply = true
    ∧ rp_email_sent reply = Some (Some (gmail_api_up w))
    ∧ rp_calendar_added reply = Some (Some (calendar_accepts_insert w))
    ∧ rp_appointment_details reply = Some pd
    ∧ call_log w' = call_log w ++ [pd]
    ∧ gmail_sent w'
      = (if gmail_api_up w then gmail_sent w ++ [pd_email pd] else gmail_sent w)
    ∧ CalendarService.events (calendar w')
      = (if calendar_accepts_insert w
         then CalendarService.events (calendar w) ++ [event_of_patient_data pd]
         else CalendarService.events (calendar w)).
Proof.
  intros Hcheck Hav pd. rewrite (book_committed svc arguments w d Hcheck Hav).
  exists (confirmed_reply (Some (gmail_api_up w)) (Some (calendar_accepts_insert w)) pd).
  eexists. split; [reflexivity|].
  destruct (gmail_api_up w), (calendar_accepts_insert w); cbn; done.
Qed.

Lemma book_reply_after_commit_witness :
  ∃ reply w',
    handle_book_appointment the_calendar_service (booking_at 630) calendar_refusing_world
    = (Ok (), w')
    ∧ rp_success reply = true
    ∧ rp_calendar_added reply = Some (Some false)
    ∧ CalendarService.events (calendar w') = [sample_event]
    ∧ gmail_sent w' = ["asha@example.com"%string].
Proof.
  destruct (book_reply_after_commit the_calendar_service (booking_at 630)
              calendar_refusing_world free_answer)
    as (reply & w' & H & _ & Hs & _ & Hc & _ & _ & Hg & He).
  - vm_compute. reflexivity.
  - discriminate.
  - exists reply, w'. split; [exact H|]. split; [exact Hs|]. split; [exact Hc|].
    split; [exact He|exact Hg].
Defined.

(** ** What [check_availability] returns *)

(** X26: the two shapes of an availability answer and the one error.
    When the calendar request goes through, the answer has
    [success = True] and either [available = True] with a message and
    neither conflicts nor alternatives, or [available = False] with a
    non-empty list of conflicts and a list of alternatives, and no
    message; when the request fails the call raises, since nothing in it
    catches the error. *)
Lemma check_availability_shapes
    (self : CalendarService.t) (appointment_date appointment_time duration : Z) :
  match CalendarService.check_availability self
          appointment_date appointment_time duration with
  | Ok r =>
      CalendarService.api_up self = true
      ∧ av_success r = Some true
      ∧ ((av_available r = Some true ∧ is_Some (av_message r)
          ∧ av_conflicts r = None ∧ av_alternatives r = None)
         ∨ (av_available r = Some false ∧ av_message r = None
            ∧ (∃ c cs, av_conflicts r = Some (c :: cs))
            ∧ is_Some (av_alternatives r)))
  | Raise e =>
      CalendarService.api_up self = false ∧ e = HttpError "calendar"
  end.
Proof.
  unfold CalendarService.check_availability, CalendarService.events_list.
  destruct (CalendarService.api_up self); simpl; [|done].
  destruct (_check_time_conflicts _ _ _) as [|c cs]; simpl.
  - split; [done|]. split; [done|]. left. eauto.
  - split; [done|]. split; [done|]. right. repeat split; eauto.
Qed.
